(** * NxtpSdkBase: quote, prepare and fulfil of a cross-chain transfer

    A shallow embedding of the class [NxtpSdkBase] of the sdk package and of
    [packages/sdk/src/utils.ts]. Line numbers are those of the source of the
    class.

    - JS numbers that hold timestamps, chain ids and timeouts are [Z].
    - Amounts are decimal strings read through [BigNumber.from]; they are
      [Z], the integers those strings denote. A response whose amounts
      denote no integer, on which [BigNumber.from] throws, has no
      counterpart here.
    - [slippageTolerance] is a decimal string read through [parseFloat]; it
      is the rational [Q] the string denotes, and the arithmetic on it is
      exact (the rounding of IEEE doubles is not modelled). A string that
      [parseFloat] reads as [NaN] has no counterpart here.
    - An [async] function is a function into [Outcome]: [Resolved] for a
      fulfilled promise, [Rejected] for a thrown error.
    - Everything the class reaches through [this] or through an import that
      is not part of the two files (the transaction manager, the subgraph,
      the messaging service, the schema validators, the helpers of
      [@connext/nxtp-utils] and [ethers]) is a field of a record: the
      members of the class in [NxtpSdkBase], the imported functions in
      [Imports]. A promise of such a collaborator is a [Remote]: it fulfils
      with a value or rejects with an [Error] that carries a message. A
      call that may throw is a [Remote] as well: inside an [async] function
      a thrown error rejects the promise of that function. *)

From Stdlib Require Import ZArith QArith Qround List Sorted String Lia Lqa.
From stdpp Require Import base option list gmap strings pretty.
Import ListNotations.

Open Scope Z_scope.

(** ** Errors and promises *)

(** The error classes of [./error], and [Thrown] for an [Error] that comes
    from an external collaborator, carrying its [message]. *)
Inductive SdkError : Type :=
| InvalidParamStructure (method typeName : string)
| ChainNotConfigured (chainId : Z)
| SubgraphsNotSynced
| InvalidSlippage (slippage : Q)
| InvalidExpiry (expiry minBuffer maxBuffer blockTimestamp : Z)
| EncryptionError
| NoBids (timeout : Z)
| NoValidBids (transactionId reasons : string)
| UnknownAuctionError (transactionId : string) (cause : SdkError)
| InvalidBidSignature (transactionId : string)
| InvalidCallTo (transactionId callTo : string)
| MetaTxTimeout (transactionId : string) (timeout : Z)
| Thrown (message : string).

Inductive Outcome (A : Type) : Type :=
| Resolved (a : A)
| Rejected (e : SdkError).
Arguments Resolved {A} a.
Arguments Rejected {A} e.

#[global] Instance Outcome_ret : MRet Outcome := fun A a => Resolved a.
#[global] Instance Outcome_bind : MBind Outcome := fun A B k m =>
  match m with
  | Resolved a => k a
  | Rejected e => Rejected e
  end.

(** [try { m } catch (e) { h e }] *)
Definition try_catch {A} (m : Outcome A) (h : SdkError -> Outcome A) : Outcome A :=
  match m with
  | Resolved a => Resolved a
  | Rejected e => h e
  end.

(** [if (c) { throw e }] *)
Definition throw_if (c : bool) (e : SdkError) : Outcome unit :=
  if c then Rejected e else Resolved tt.

Definition is_resolved {A} (m : Outcome A) : bool :=
  match m with Resolved _ => true | Rejected _ => false end.

(** The promise of an external collaborator, or the result of a call to it
    that may throw: [inr] a value, or [inl] the message of the error it
    rejects with (or throws). *)
Definition Remote (A : Type) : Type := (string + A)%type.

(** [await p] *)
Definition await {A} (p : Remote A) : Outcome A :=
  match p with
  | inr a => Resolved a
  | inl m => Rejected (Thrown m)
  end.

(** [Promise.all(ps)]: the values in the order of [ps], or the rejection of
    the first promise that rejects. The promises it is used on (line 493)
    are the checks of the bids, which reject here only at line 497, before
    their first [await]: the first to reject is the first rejected one of
    the array. *)
Fixpoint Promise_all {A} (ps : list (Outcome A)) : Outcome (list A) :=
  match ps with
  | [] => Resolved []
  | p :: ps =>
      a ← p;
      l ← Promise_all ps;
      mret (a :: l)
  end.

(** [Error.message], as far as [fulfillTransfer] reads it. *)
Definition message (e : SdkError) : string :=
  match e with
  | Thrown m => m
  | _ => ""
  end.

(** [s.includes(sub)] *)
Definition includes (s sub : string) : bool :=
  match String.index 0 sub s with
  | Some _ => true
  | None => false
  end.

(** ** Constants of the module (lines 83-87) *)

Definition MIN_SLIPPAGE_TOLERANCE : Q := 1 # 100.      (* "00.01" *)
Definition MAX_SLIPPAGE_TOLERANCE : Q := 15 # 1.       (* "15.00" *)
Definition DEFAULT_SLIPPAGE_TOLERANCE : Q := 10 # 100. (* "0.10" *)
Definition AUCTION_TIMEOUT : Z := 6000.
Definition META_TX_TIMEOUT : Z := 300000.

(** [constants.AddressZero] of ethers. *)
Definition AddressZero : string := "0x0000000000000000000000000000000000000000".

(** ** utils.ts *)

Definition hoursToSeconds (hours : Z) : Z := hours * 60 * 60.

Definition daysToSeconds (days : Z) : Z := hoursToSeconds (days * 24).

Definition getExpiry (latestBlockTimestamp : Z) : Z :=
  latestBlockTimestamp + daysToSeconds 3 + hoursToSeconds 3.

Definition getMinExpiryBuffer : Z := daysToSeconds 2 + hoursToSeconds 1.

Definition getMaxExpiryBuffer : Z := daysToSeconds 4.

(** ** Data model *)

Module AuctionBid.
Record t : Type := mk {
  user : string;
  router : string;
  initiator : string;
  sendingChainId : Z;
  sendingAssetId : string;
  amount : Z;
  receivingChainId : Z;
  receivingAssetId : string;
  amountReceived : Z;
  receivingAddress : string;
  transactionId : string;
  expiry : Z;
  callDataHash : string;
  callTo : string;
  encryptedCallData : string;
  bidExpiry : Z;
}.
End AuctionBid.

Record AuctionResponse : Type := {
  bid : AuctionBid.t;
  bidSignature : option string;
  gasFeeInReceivingToken : Z;
}.

Module CrossChainParams.
Record t : Type := mk {
  callData : option string;
  sendingChainId : Z;
  sendingAssetId : string;
  receivingChainId : Z;
  receivingAssetId : string;
  callTo : option string;
  receivingAddress : string;
  amount : Z;
  expiry : option Z;
  transactionId : option string;
  slippageTolerance : option Q;
  dryRun : option bool;
  preferredRouters : option (list string);
  initiator : option string;
}.
End CrossChainParams.

Module InvariantTransactionData.
Record t : Type := mk {
  receivingChainTxManagerAddress : string;
  user : string;
  router : string;
  initiator : string;
  sendingAssetId : string;
  receivingAssetId : string;
  sendingChainFallback : string;
  callTo : string;
  receivingAddress : string;
  sendingChainId : Z;
  receivingChainId : Z;
  callDataHash : string;
  transactionId : string;
}.
End InvariantTransactionData.

Module PrepareParams.
Record t : Type := mk {
  txData : InvariantTransactionData.t;
  encryptedCallData : string;
  bidSignature : string;
  encodedBid : string;
  amount : Z;
  expiry : Z;
}.
End PrepareParams.

(** [TransactionData] is the invariant data together with the variant part. *)
Module TransactionData.
Record t : Type := mk {
  invariant : InvariantTransactionData.t;
  amount : Z;
  expiry : Z;
  preparedBlockNumber : Z;
}.
Definition transactionId (d : t) : string :=
  InvariantTransactionData.transactionId (invariant d).
Definition sendingChainId (d : t) : Z :=
  InvariantTransactionData.sendingChainId (invariant d).
Definition receivingChainId (d : t) : Z :=
  InvariantTransactionData.receivingChainId (invariant d).
End TransactionData.

(** [Omit<TransactionPreparedEvent, "caller">] *)
Module TransactionPreparedEvent.
Record t : Type := mk {
  txData : TransactionData.t;
  encryptedCallData : string;
  encodedBid : string;
  bidSignature : string;
}.
End TransactionPreparedEvent.

(** The payload of [SubgraphEvents.ReceiverTransactionFulfilled]. *)
Module ReceiverTransactionFulfilled.
Record t : Type := mk {
  txData : TransactionData.t;
  signature : string;
  relayerFee : string;
  callData : string;
  caller : string;
  transactionHash : string;
}.
End ReceiverTransactionFulfilled.

Record MetaTxResponse : Type := {
  transactionHash : string;
  chainId : Z;
}.

(** [providers.TransactionRequest], as the transaction manager builds it. *)
Record TransactionRequest : Type := {
  to : string;
  data : string;
  requestChainId : Z;
}.

Record SubgraphSyncRecord : Type := {
  synced : bool;
  syncedBlock : Z;
  latestBlock : Z;
}.

Module AuctionPayload.
Record t : Type := mk {
  user : string;
  initiator : string;
  sendingChainId : Z;
  sendingAssetId : string;
  amount : Z;
  receivingChainId : Z;
  receivingAssetId : string;
  receivingAddress : string;
  callTo : string;
  callDataHash : string;
  encryptedCallData : string;
  expiry : Z;
  transactionId : string;
  dryRun : bool;
}.
End AuctionPayload.

(** What [auctionResponseEvt] carries: [{ inbox; data?; err? }]. *)
Module AuctionMessage.
Record t : Type := mk {
  inbox : string;
  data : option AuctionResponse;
  err : option string;
}.
End AuctionMessage.

Module FulfillParams.
Record t : Type := mk {
  relayerFee : string;
  signature : string;
  txData : TransactionData.t;
  callData : string;
}.
End FulfillParams.

Module MetaTxRequest.
Record t : Type := mk {
  type : string;
  relayerFee : string;
  to : string;
  chainId : Z;
  data : FulfillParams.t;
}.
End MetaTxRequest.

(** [fulfillTransfer] answers [{ fulfillRequest?; metaTxResponse? }]. *)
Record FulfillResult : Type := {
  fulfillRequest : option TransactionRequest;
  metaTxResponse : option MetaTxResponse;
}.

(** ** External collaborators *)

(** [providers.FallbackProvider], as far as the class calls it. *)
Record Provider : Type := {
  getCode : string -> Remote string;
}.

Module ChainConfig.
Record t : Type := mk {
  provider : Provider;
  transactionManagerAddress : option string;
  priceOracleAddress : option string;
  subgraph : option string;
  subgraphSyncBuffer : option Z;
}.
End ChainConfig.

Record Config : Type := {
  chainConfig : gmap Z ChainConfig.t;
  signerAddress : string;
}.

(** [./transactionManager/transactionManager]. The source asserts the result
    of [getTransactionManagerAddress] with [!]. *)
Record TransactionManager : Type := {
  getRouterLiquidity : Z -> string -> string -> Remote Z;
  getTransactionManagerAddress : Z -> string;
  prepare : Z -> PrepareParams.t -> Remote TransactionRequest;
  fulfill : Z -> FulfillParams.t -> Remote TransactionRequest;
}.

(** [./subgraph/subgraph]. [fulfilledEvents] is what the subgraph emits on
    [ReceiverTransactionFulfilled] once a handler is registered: each event
    with the milliseconds between the registration and its arrival, in order
    of arrival. *)
Record Subgraph : Type := {
  getSyncStatus : Z -> option SubgraphSyncRecord;
  fulfilledEvents : list (Z * ReceiverTransactionFulfilled.t);
}.

(** [UserNxtpNatsMessagingService]. [posted] is what the subscription of
    [connectMessaging] posts on [auctionResponseEvt] once an auction has
    attached its handler: each message with the milliseconds between the
    attachment and its arrival, in order of arrival. *)
Record Messaging : Type := {
  isConnected : bool;
  connect : Remote string;
  subscribeToAuctionResponse : Remote unit;
  publishAuctionRequest : AuctionPayload.t -> string -> Remote unit;
  publishMetaTxRequest : MetaTxRequest.t -> string -> Remote unit;
  posted : list (Z * AuctionMessage.t);
}.

(** The imports from [@connext/nxtp-utils], [ethers] and [./types] that the
    class calls; their code is outside the two files. The schema validators
    stand for [ajv.compile(Schema)]. [recoverAuctionBid] returns the
    address that signed the bid, or throws ([inl] the message of the error)
    on a signature it cannot read; [encodeAuctionBid], [keccak256] and
    [getAddress] are total. *)
Record Imports : Type := {
  recoverAuctionBid : AuctionBid.t -> string -> Remote string;
  encodeAuctionBid : AuctionBid.t -> string;
  keccak256 : string -> string;
  getAddress : string -> string;
  getTimestampInSeconds : Z;
  getRandomBytes32 : string;
  generateMessagingInbox : string;
  ethereumRequest : string -> list string -> Remote string;
  encrypt : string -> string -> Remote string;
  CrossChainParamsSchema : CrossChainParams.t -> bool;
  AuctionBidParamsSchema : AuctionBid.t -> bool;
  TransactionPrepareEventSchema : TransactionPreparedEvent.t -> bool;
}.

(** The instance: [this.config], [this.transactionManager],
    [this.messaging], [this.subgraph]. *)
Record NxtpSdkBase : Type := {
  config : Config;
  transactionManager : TransactionManager;
  messaging : Messaging;
  subgraph : Subgraph;
}.

(** ** The event bus

    The class drives [auctionResponseEvt] through the [evt] library:
    [pipe(f)] keeps the messages on which [f] holds, [attach] runs a handler
    on every message until [detach], [waitFor(t)] resolves with the first
    message that arrives before [t] ms have passed and rejects with an error
    whose message starts with "Evt timeout" otherwise. *)

Definition EvtTimeout (timeout : Z) : SdkError :=
  Thrown ("Evt timeout after " +:+ pretty timeout +:+ "ms").

Definition evt_waitFor {A} (stream : list (Z * A)) (filter : A -> bool) (timeout : Z)
  : Outcome A :=
  match List.find (fun '(t, a) => (t <? timeout) && filter a) stream with
  | Some (_, a) => Resolved a
  | None => Rejected (EvtTimeout timeout)
  end.

(** The messages a handler sees between [attach] and the [detach] that a
    [setTimeout(..., timeout)] performs. *)
Definition evt_attached {A} (stream : list (Z * A)) (filter : A -> bool) (timeout : Z)
  : list A :=
  List.map snd (List.filter (fun '(t, a) => (t <? timeout) && filter a) stream).

(** Modelled from the spec: [Subgraph.waitFor] of [./subgraph/subgraph],
    which is not among the sources. "waitFor resolves to the first matching
    event after registration"; "First arrival wins; deadline ->
    MetaTxTimeout": the first event on which the filter holds, when it
    arrives before [timeout] ms have passed, and the timeout error of the
    [evt] library otherwise. *)
Definition Subgraph_waitFor (s : Subgraph)
    (timeout : Z) (filter : ReceiverTransactionFulfilled.t -> bool)
  : Outcome ReceiverTransactionFulfilled.t :=
  evt_waitFor (fulfilledEvents s) filter timeout.

(** ** Array.prototype.sort

    [l.sort(compareFn)] as a stable insertion sort: the elements are taken in
    their order in [l], and each is placed in front of the first element [y]
    of the sorted prefix with [compareFn(x, y) < 0]. The sign of the
    comparator is all that the sort reads, as in the insertion step of V8,
    which places a pivot by testing [comparefn(pivot, element) < 0]. *)
Fixpoint sort_insert {A} (compareFn : A -> A -> Z) (x : A) (sorted : list A) : list A :=
  match sorted with
  | [] => [x]
  | y :: rest =>
      if compareFn x y <? 0 then x :: y :: rest
      else y :: sort_insert compareFn x rest
  end.

Definition Array_sort {A} (compareFn : A -> A -> Z) (l : list A) : list A :=
  List.fold_left (fun sorted x => sort_insert compareFn x sorted) l [].

(** [l.join(",")] *)
Definition join (sep : string) (l : list string) : string := String.concat sep l.

(** JS truthiness of an optional string ([undefined] and [""] are falsy). *)
Definition truthy (s : option string) : bool :=
  match s with
  | Some v => negb (v =? "")%string
  | None => false
  end.

Definition isSome {A} (o : option A) : bool :=
  match o with Some _ => true | None => false end.

Definition Qltb (x y : Q) : bool := negb (Qle_bool y x).

(** Modelled from the spec: [calculateExchangeAmount] of
    [@connext/nxtp-utils], which is not among the sources. "let lowerBound =
    floor(amtMinusGas x (1 - slippageTolerance/100))"; "calculateExchangeAmount
    uses integer floor-division; always take the integer portion (split on
    '.'[0]) for the lower bound comparison": the product as a decimal, and
    its integer portion as the floor. *)
Definition calculateExchangeAmount (inputAmount : Z) (swapRate : Q) : Q :=
  (inject_Z inputAmount * swapRate)%Q.

Definition integerPortion (decimal : Q) : Z := Qfloor decimal.

(** What [getTransferQuote] has fixed once the request is published. *)
Record Auction : Type := {
  payload : AuctionPayload.t;
  inbox : string;
  slippageTolerance : Q;
  preferredRouters : list string;
}.

(** ** The class *)

Section Methods.
Context (lib : Imports).

(** lines 246-257 *)
Definition connectMessaging (this : NxtpSdkBase) : Outcome string :=
  token ← await (connect (messaging this));
  _ ← await (subscribeToAuctionResponse (messaging this));
  mret token.

(** lines 273-282 *)
Definition getSubgraphSyncStatus (this : NxtpSdkBase) (chainId : Z) : SubgraphSyncRecord :=
  default {| synced := false; syncedBlock := 0; latestBlock := 0 |}
          (getSyncStatus (subgraph this) chainId).

(** [!this.config.chainConfig[chainId]] *)
Definition notConfigured (this : NxtpSdkBase) (chainId : Z) : bool :=
  negb (isSome (chainConfig (config this) !! chainId)).

(** [getTransferQuote], lines 313-403 and 459-474: the checks on the
    parameters, the encryption of the call data, the connection, and the
    payload of the auction. *)
Definition openAuction (this : NxtpSdkBase) (params : CrossChainParams.t) : Outcome Auction :=
  let transactionId :=
    default (getRandomBytes32 lib) (CrossChainParams.transactionId params) in
  _ ← throw_if (negb (CrossChainParamsSchema lib params))
        (InvalidParamStructure "getTransferQuote" "CrossChainParams");
  let user := signerAddress (config this) in
  let sendingChainId := CrossChainParams.sendingChainId params in
  let receivingChainId := CrossChainParams.receivingChainId params in
  let slippageTolerance :=
    default DEFAULT_SLIPPAGE_TOLERANCE (CrossChainParams.slippageTolerance params) in
  _ ← throw_if (notConfigured this sendingChainId) (ChainNotConfigured sendingChainId);
  _ ← throw_if (notConfigured this receivingChainId) (ChainNotConfigured receivingChainId);
  let sendingSyncStatus := getSubgraphSyncStatus this sendingChainId in
  let receivingSyncStatus := getSubgraphSyncStatus this receivingChainId in
  _ ← throw_if (negb (synced sendingSyncStatus) || negb (synced receivingSyncStatus))
        SubgraphsNotSynced;
  _ ← throw_if (Qltb slippageTolerance MIN_SLIPPAGE_TOLERANCE)
        (InvalidSlippage slippageTolerance);
  _ ← throw_if (Qltb MAX_SLIPPAGE_TOLERANCE slippageTolerance)
        (InvalidSlippage slippageTolerance);
  let preferredRouters :=
    List.map (getAddress lib) (default [] (CrossChainParams.preferredRouters params)) in
  let blockTimestamp := getTimestampInSeconds lib in
  let expiry := default (getExpiry blockTimestamp) (CrossChainParams.expiry params) in
  _ ← throw_if (expiry - blockTimestamp <? getMinExpiryBuffer)
        (InvalidExpiry expiry getMinExpiryBuffer getMaxExpiryBuffer blockTimestamp);
  _ ← throw_if (expiry - blockTimestamp >? getMaxExpiryBuffer)
        (InvalidExpiry expiry getMinExpiryBuffer getMaxExpiryBuffer blockTimestamp);
  let callTo := default AddressZero (CrossChainParams.callTo params) in
  let callData := default "0x" (CrossChainParams.callData params) in
  let callDataHash := keccak256 lib callData in
  encryptedCallData ←
    (if (callData =? "0x")%string then mret "0x"
     else try_catch
            (encryptionPublicKey ←
               await (ethereumRequest lib "eth_getEncryptionPublicKey" [user]);
             await (encrypt lib callData encryptionPublicKey))
            (fun _ => Rejected EncryptionError));
  _ ← (if isConnected (messaging this) then mret ""
       else connectMessaging this);
  mret {|
    payload := {|
      AuctionPayload.user := user;
      AuctionPayload.initiator := default user (CrossChainParams.initiator params);
      AuctionPayload.sendingChainId := sendingChainId;
      AuctionPayload.sendingAssetId := CrossChainParams.sendingAssetId params;
      AuctionPayload.amount := CrossChainParams.amount params;
      AuctionPayload.receivingChainId := receivingChainId;
      AuctionPayload.receivingAssetId := CrossChainParams.receivingAssetId params;
      AuctionPayload.receivingAddress := CrossChainParams.receivingAddress params;
      AuctionPayload.callTo := callTo;
      AuctionPayload.callDataHash := callDataHash;
      AuctionPayload.encryptedCallData := encryptedCallData;
      AuctionPayload.expiry := expiry;
      AuctionPayload.transactionId := transactionId;
      AuctionPayload.dryRun := default false (CrossChainParams.dryRun params);
    |};
    inbox := generateMessagingInbox lib;
    slippageTolerance := slippageTolerance;
    preferredRouters := preferredRouters;
  |}.

(** The three [pipe] stages that every policy shares (lines 409-411,
    425-427, 440-448). *)
Definition isBid (inbox : string) (m : AuctionMessage.t) : bool :=
  (AuctionMessage.inbox m =? inbox)%string
  && isSome (AuctionMessage.data m)
  && negb (truthy (AuctionMessage.err m)).

(** line 428 *)
Definition fromPreferred (preferredRouters : list string) (m : AuctionMessage.t) : bool :=
  match AuctionMessage.data m with
  | Some d =>
      List.existsb (String.eqb (getAddress lib (AuctionBid.router (bid d)))) preferredRouters
  | None => false
  end.

(** [[result.data as AuctionResponse]] *)
Definition dataOf (m : AuctionMessage.t) : list AuctionResponse :=
  match AuctionMessage.data m with
  | Some d => [d]
  | None => []
  end.

(** lines 405-457: what [auctionBidsPromise] settles to. *)
Definition auctionBidsPromise (this : NxtpSdkBase) (a : Auction) : Outcome (list AuctionResponse) :=
  let auctionResponseEvt := posted (messaging this) in
  if AuctionPayload.dryRun (payload a) then
    result ← evt_waitFor auctionResponseEvt (isBid (inbox a)) AUCTION_TIMEOUT;
    mret (dataOf result)
  else if (0 <? Z.of_nat (length (preferredRouters a))) then
    result ← evt_waitFor auctionResponseEvt
               (fun m => isBid (inbox a) m && fromPreferred (preferredRouters a) m)
               (AUCTION_TIMEOUT * 2);
    mret (dataOf result)
  else
    mret (List.concat
            (List.map dataOf (evt_attached auctionResponseEvt (isBid (inbox a)) AUCTION_TIMEOUT))).

(** The callback of [auctionResponses.map], lines 494-555: a string is the
    reason a bid is turned down. The call of line 497 stands outside the
    [try] of lines 505-530: when it throws, the promise of the callback
    rejects. *)
Definition validateBid (this : NxtpSdkBase) (receivingChainId : Z) (receivingAssetId : string)
    (slippageTolerance : Q) (data : AuctionResponse) : Outcome (string + AuctionResponse) :=
  signer ← await (recoverAuctionBid lib (bid data) (default "" (bidSignature data)));
  if negb (signer =? AuctionBid.router (bid data))%string then
    mret (inl "Invalid router signature on bid")
  else
    match await (getRouterLiquidity (transactionManager this)
                   receivingChainId (AuctionBid.router (bid data)) receivingAssetId) with
    | Rejected _ => mret (inl "Error getting router liquidity")
    | Resolved routerLiq =>
        if routerLiq <? AuctionBid.amountReceived (bid data) then
          mret (inl "Router's liquidity low")
        else
          let lowerBoundExchangeRate := (1 - slippageTolerance / 100)%Q in
          let amtMinusGas :=
            AuctionBid.amountReceived (bid data) - gasFeeInReceivingToken data in
          let lowerBound :=
            integerPortion (calculateExchangeAmount amtMinusGas lowerBoundExchangeRate) in
          if AuctionBid.amountReceived (bid data) <? lowerBound then
            mret (inl "Invalid bid price: price impact is more than the slippage tolerance")
          else mret (inr data)
    end.

(** The comparator of line 564. *)
Definition compareBids (a b : AuctionResponse) : Z :=
  if AuctionBid.amountReceived (bid b) >? AuctionBid.amountReceived (bid a) then -1 else 1.

Definition validOf (x : string + AuctionResponse) : option AuctionResponse :=
  match x with inr d => Some d | inl _ => None end.

Definition invalidOf (x : string + AuctionResponse) : option string :=
  match x with inl msg => Some msg | inr _ => None end.

(** lines 493-556: [await Promise.all(auctionResponses.map(...))] *)
Definition filtered (this : NxtpSdkBase) (a : Auction)
    (auctionResponses : list AuctionResponse) : Outcome (list (string + AuctionResponse)) :=
  Promise_all
    (List.map (validateBid this
                 (AuctionPayload.receivingChainId (payload a))
                 (AuctionPayload.receivingAssetId (payload a))
                 (slippageTolerance a))
              auctionResponses).

(** line 558: [filtered.filter((x) => typeof x !== "string")] *)
Definition valid (filtered : list (string + AuctionResponse)) : list AuctionResponse :=
  omap validOf filtered.

(** line 559: [filtered.filter((x) => typeof x === "string")] *)
Definition invalid (filtered : list (string + AuctionResponse)) : list string :=
  omap invalidOf filtered.

(** lines 487-566, the body of the [try] once the bids are in. *)
Definition settleAuction (this : NxtpSdkBase) (a : Auction)
    (auctionResponses : list AuctionResponse) : Outcome AuctionResponse :=
  match auctionResponses with
  | [] => Rejected (NoBids AUCTION_TIMEOUT)
  | first :: _ =>
      if AuctionPayload.dryRun (payload a) then Resolved first
      else
        filtered ← filtered this a auctionResponses;
        match valid filtered with
        | [] => Rejected (NoValidBids (AuctionPayload.transactionId (payload a))
                                      (join "," (invalid filtered)))
        | v :: _ => Resolved (List.hd v (Array_sort compareBids (valid filtered)))
        end
  end.

(** lines 313-573 *)
Definition getTransferQuote (this : NxtpSdkBase) (params : CrossChainParams.t)
  : Outcome AuctionResponse :=
  a ← openAuction this params;
  _ ← await (publishAuctionRequest (messaging this) (payload a) (inbox a));
  try_catch
    (auctionResponses ← auctionBidsPromise this a;
     settleAuction this a auctionResponses)
    (fun e => Rejected (UnknownAuctionError (AuctionPayload.transactionId (payload a)) e)).

(** [prepareTransfer], lines 613-706: the checks and the parameters handed
    to the transaction manager. *)
Definition prepareParams (this : NxtpSdkBase) (transferParams : AuctionResponse)
  : Outcome PrepareParams.t :=
  let sendingSyncStatus :=
    getSubgraphSyncStatus this (AuctionBid.sendingChainId (bid transferParams)) in
  let receivingSyncStatus :=
    getSubgraphSyncStatus this (AuctionBid.receivingChainId (bid transferParams)) in
  _ ← throw_if (negb (synced sendingSyncStatus) || negb (synced receivingSyncStatus))
        SubgraphsNotSynced;
  let bid := bid transferParams in
  _ ← throw_if (negb (AuctionBidParamsSchema lib bid))
        (InvalidParamStructure "prepareTransfer" "AuctionResponse");
  let sendingChainId := AuctionBid.sendingChainId bid in
  let receivingChainId := AuctionBid.receivingChainId bid in
  let callTo := AuctionBid.callTo bid in
  let transactionId := AuctionBid.transactionId bid in
  let encodedBid := encodeAuctionBid lib bid in
  _ ← throw_if (notConfigured this sendingChainId) (ChainNotConfigured sendingChainId);
  _ ← throw_if (notConfigured this receivingChainId) (ChainNotConfigured receivingChainId);
  _ ← throw_if (negb (truthy (bidSignature transferParams)))
        (InvalidBidSignature transactionId);
  _ ← (if negb (callTo =? AddressZero)%string then
         match chainConfig (config this) !! receivingChainId with
         | Some c =>
             callToContractCode ← await (getCode (ChainConfig.provider c) callTo);
             throw_if (negb (truthy (Some callToContractCode))
                       || (callToContractCode =? "0x")%string)
                      (InvalidCallTo transactionId callTo)
         | None => Rejected (Thrown "Cannot read properties of undefined")
         end
       else mret tt);
  let txData := {|
    InvariantTransactionData.receivingChainTxManagerAddress :=
      getTransactionManagerAddress (transactionManager this) receivingChainId;
    InvariantTransactionData.user := AuctionBid.user bid;
    InvariantTransactionData.router := AuctionBid.router bid;
    InvariantTransactionData.initiator := AuctionBid.initiator bid;
    InvariantTransactionData.sendingAssetId := AuctionBid.sendingAssetId bid;
    InvariantTransactionData.receivingAssetId := AuctionBid.receivingAssetId bid;
    InvariantTransactionData.sendingChainFallback := AuctionBid.user bid;
    InvariantTransactionData.callTo := callTo;
    InvariantTransactionData.receivingAddress := AuctionBid.receivingAddress bid;
    InvariantTransactionData.sendingChainId := sendingChainId;
    InvariantTransactionData.receivingChainId := receivingChainId;
    InvariantTransactionData.callDataHash := AuctionBid.callDataHash bid;
    InvariantTransactionData.transactionId := transactionId;
  |} in
  mret {|
    PrepareParams.txData := txData;
    PrepareParams.encryptedCallData := AuctionBid.encryptedCallData bid;
    PrepareParams.bidSignature := default "" (bidSignature transferParams);
    PrepareParams.encodedBid := encodedBid;
    PrepareParams.amount := AuctionBid.amount bid;
    PrepareParams.expiry := AuctionBid.expiry bid;
  |}.

(** lines 613-709 *)
Definition prepareTransfer (this : NxtpSdkBase) (transferParams : AuctionResponse)
  : Outcome TransactionRequest :=
  params ← prepareParams this transferParams;
  await (prepare (transactionManager this)
                 (AuctionBid.sendingChainId (bid transferParams)) params).

(** lines 767-862. [relayerFee] defaults to "0" and [useRelayers] to
    [true]. The error that the [catch] of lines 843-845 reads comes from
    [waitFor]. *)
Definition fulfillTransfer (this : NxtpSdkBase) (params : TransactionPreparedEvent.t)
    (fulfillSignature decryptedCallData : string)
    (relayerFee : option string) (useRelayers : option bool) : Outcome FulfillResult :=
  let relayerFee := default "0" relayerFee in
  let useRelayers := default true useRelayers in
  _ ← throw_if (negb (TransactionPrepareEventSchema lib params))
        (InvalidParamStructure "fulfillTransfer" "TransactionPrepareEventParams");
  let txData := TransactionPreparedEvent.txData params in
  _ ← throw_if (notConfigured this (TransactionData.sendingChainId txData))
        (ChainNotConfigured (TransactionData.sendingChainId txData));
  _ ← throw_if (notConfigured this (TransactionData.receivingChainId txData))
        (ChainNotConfigured (TransactionData.receivingChainId txData));
  let fulfillParams := {|
    FulfillParams.relayerFee := relayerFee;
    FulfillParams.signature := fulfillSignature;
    FulfillParams.txData := txData;
    FulfillParams.callData := decryptedCallData;
  |} in
  if useRelayers then
    _ ← (if isConnected (messaging this) then mret ""
         else connectMessaging this);
    let responseInbox := generateMessagingInbox lib in
    let metaTxProm :=
      Subgraph_waitFor (subgraph this) META_TX_TIMEOUT
        (fun data =>
           (TransactionData.transactionId (ReceiverTransactionFulfilled.txData data)
            =? TransactionData.transactionId txData)%string) in
    let request := {|
      MetaTxRequest.type := "Fulfill";
      MetaTxRequest.relayerFee := relayerFee;
      MetaTxRequest.to :=
        getTransactionManagerAddress (transactionManager this)
          (TransactionData.receivingChainId txData);
      MetaTxRequest.chainId := TransactionData.receivingChainId txData;
      MetaTxRequest.data := fulfillParams;
    |} in
    _ ← await (publishMetaTxRequest (messaging this) request responseInbox);
    try_catch
      (response ← metaTxProm;
       mret {|
         fulfillRequest := None;
         metaTxResponse := Some {|
           transactionHash := ReceiverTransactionFulfilled.transactionHash response;
           chainId :=
             TransactionData.receivingChainId (ReceiverTransactionFulfilled.txData response);
         |};
       |})
      (fun e =>
         Rejected (if includes (message e) "Evt timeout"
                   then MetaTxTimeout (TransactionData.transactionId txData) META_TX_TIMEOUT
                   else e))
  else
    fulfillRequest ← await (fulfill (transactionManager this)
                              (TransactionData.receivingChainId txData) fulfillParams);
    mret {| fulfillRequest := Some fulfillRequest; metaTxResponse := None |}.

End Methods.

(** ** Scenarios

    A small world on which the methods can be run: chains 1337 and 1338 are
    configured and synced, the clock reads 1700000000, every schema accepts,
    the hash and the address normalisation are stand-ins, the signature of a
    bid is the address of its signer, and the empty signature is one that
    [recoverAuctionBid] cannot read. *)

Module Scenario.

Definition now : Z := 1700000000.

Definition lib : Imports := {|
  recoverAuctionBid := fun _ signature =>
    if (signature =? "")%string then inl "invalid signature" else inr signature;
  encodeAuctionBid := fun b => "bid:" +:+ AuctionBid.transactionId b;
  keccak256 := fun preimage => "keccak256:" +:+ preimage;
  getAddress := fun a => a;
  getTimestampInSeconds := now;
  getRandomBytes32 := "0xrandom";
  generateMessagingInbox := "inbox-1";
  ethereumRequest := fun _ _ => inr "0xpublickey";
  encrypt := fun callData _ => inr ("encrypted:" +:+ callData);
  CrossChainParamsSchema := fun _ => true;
  AuctionBidParamsSchema := fun _ => true;
  TransactionPrepareEventSchema := fun _ => true;
|}.

Definition chain (code : Remote string) : ChainConfig.t := {|
  ChainConfig.provider := {| getCode := fun _ => code |};
  ChainConfig.transactionManagerAddress := Some "0xtxmanager";
  ChainConfig.priceOracleAddress := None;
  ChainConfig.subgraph := Some "https://subgraph";
  ChainConfig.subgraphSyncBuffer := None;
|}.

(** An instance whose routers hold [liquidity], whose providers answer
    [code], whose bus posts [messages] and whose subgraph emits [events]. *)
Definition sdk (liquidity : Remote Z) (code : Remote string)
    (messages : list (Z * AuctionMessage.t))
    (events : list (Z * ReceiverTransactionFulfilled.t)) : NxtpSdkBase := {|
  config := {|
    chainConfig := {[ 1337 := chain code; 1338 := chain code ]};
    signerAddress := "0xuser";
  |};
  transactionManager := {|
    getRouterLiquidity := fun _ _ _ => liquidity;
    getTransactionManagerAddress := fun _ => "0xtxmanager";
    prepare := fun c p =>
      inr {| to := "0xtxmanager"; data := PrepareParams.encodedBid p; requestChainId := c |};
    fulfill := fun c p =>
      inr {| to := "0xtxmanager"; data := FulfillParams.signature p; requestChainId := c |};
  |};
  messaging := {|
    isConnected := true;
    connect := inr "token";
    subscribeToAuctionResponse := inr tt;
    publishAuctionRequest := fun _ _ => inr tt;
    publishMetaTxRequest := fun _ _ => inr tt;
    posted := messages;
  |};
  subgraph := {|
    getSyncStatus := fun _ => Some {| synced := true; syncedBlock := 10; latestBlock := 10 |};
    fulfilledEvents := events;
  |};
|}.

Definition params (expiry : option Z) (dryRun : option bool) : CrossChainParams.t := {|
  CrossChainParams.callData := None;
  CrossChainParams.sendingChainId := 1337;
  CrossChainParams.sendingAssetId := "0xassetA";
  CrossChainParams.receivingChainId := 1338;
  CrossChainParams.receivingAssetId := "0xassetB";
  CrossChainParams.callTo := None;
  CrossChainParams.receivingAddress := "0xreceiver";
  CrossChainParams.amount := 100;
  CrossChainParams.expiry := expiry;
  CrossChainParams.transactionId := Some "0xtx";
  CrossChainParams.slippageTolerance := Some (10 # 100)%Q;
  CrossChainParams.dryRun := dryRun;
  CrossChainParams.preferredRouters := None;
  CrossChainParams.initiator := None;
|}.

(** The bid of [router] that hands out [amountReceived], for [callTo] and
    with [callDataHash]. *)
Definition bidOf (router : string) (amountReceived : Z) (callTo callDataHash : string)
  : AuctionBid.t := {|
  AuctionBid.user := "0xuser";
  AuctionBid.router := router;
  AuctionBid.initiator := "0xuser";
  AuctionBid.sendingChainId := 1337;
  AuctionBid.sendingAssetId := "0xassetA";
  AuctionBid.amount := 100;
  AuctionBid.receivingChainId := 1338;
  AuctionBid.receivingAssetId := "0xassetB";
  AuctionBid.amountReceived := amountReceived;
  AuctionBid.receivingAddress := "0xreceiver";
  AuctionBid.transactionId := "0xtx";
  AuctionBid.expiry := now + 270000;
  AuctionBid.callDataHash := callDataHash;
  AuctionBid.callTo := callTo;
  AuctionBid.encryptedCallData := "0x";
  AuctionBid.bidExpiry := now + 300;
|}.

(** The response of [router], signed by [signer], with gas fee [gas]. *)
Definition response (router signer : string) (amountReceived gas : Z) : AuctionResponse := {|
  bid := bidOf router amountReceived AddressZero "keccak256:0x";
  bidSignature := Some signer;
  gasFeeInReceivingToken := gas;
|}.

Definition post (t : Z) (r : AuctionResponse) : Z * AuctionMessage.t :=
  (t, {| AuctionMessage.inbox := "inbox-1";
         AuctionMessage.data := Some r;
         AuctionMessage.err := None |}).

(** The auction that [params None None] opens. *)
Definition auction : Auction := {|
  payload := {|
    AuctionPayload.user := "0xuser";
    AuctionPayload.initiator := "0xuser";
    AuctionPayload.sendingChainId := 1337;
    AuctionPayload.sendingAssetId := "0xassetA";
    AuctionPayload.amount := 100;
    AuctionPayload.receivingChainId := 1338;
    AuctionPayload.receivingAssetId := "0xassetB";
    AuctionPayload.receivingAddress := "0xreceiver";
    AuctionPayload.callTo := AddressZero;
    AuctionPayload.callDataHash := "keccak256:0x";
    AuctionPayload.encryptedCallData := "0x";
    AuctionPayload.expiry := now + 270000;
    AuctionPayload.transactionId := "0xtx";
    AuctionPayload.dryRun := false;
  |};
  inbox := "inbox-1";
  slippageTolerance := (10 # 100)%Q;
  preferredRouters := [];
|}.

(** S1: two bids, of 100 at 1 s and of 101 at 2 s, both signed by their
    routers, which hold enough liquidity. *)
Definition bid100 : AuctionResponse := response "0xrouterA" "0xrouterA" 100 0.
Definition bid101 : AuctionResponse := response "0xrouterB" "0xrouterB" 101 0.
Definition S1 : NxtpSdkBase :=
  sdk (inr 1000) (inr "0x") [post 1000 bid100; post 2000 bid101] [].

(** S2: one bid of 40 with a gas fee of 1. *)
Definition bid40 : AuctionResponse := response "0xrouterA" "0xrouterA" 40 1.
Definition S2 : NxtpSdkBase := sdk (inr 1000) (inr "0x") [post 1000 bid40] [].

(** S3: one bid whose signature recovers to another address than its router. *)
Definition forged : AuctionResponse := response "0xrouterA" "0xFOO" 100 0.
Definition S3 : NxtpSdkBase := sdk (inr 1000) (inr "0x") [post 1000 forged] [].

(** S6: the bid of 100 of S1, and at 2 s a bid of 101 that carries no
    signature. *)
Definition unsigned : AuctionResponse := {|
  bid := bidOf "0xrouterB" 101 AddressZero "keccak256:0x";
  bidSignature := None;
  gasFeeInReceivingToken := 0;
|}.
Definition S6 : NxtpSdkBase :=
  sdk (inr 1000) (inr "0x") [post 1000 bid100; post 2000 unsigned] [].

(** A router that signs a bid with another [callDataHash] than the one of
    the request. *)
Definition rehashed : AuctionResponse := {|
  bid := bidOf "0xrouterA" 100 AddressZero "0xdeadbeef";
  bidSignature := Some "0xrouterA";
  gasFeeInReceivingToken := 0;
|}.
Definition S4 : NxtpSdkBase := sdk (inr 1000) (inr "0x") [post 1000 rehashed] [].

(** S5: a bid for a [callTo] at which the provider finds no code. *)
Definition toABCD : AuctionResponse := {|
  bid := bidOf "0xrouterA" 100 "0xABCD" "keccak256:0x";
  bidSignature := Some "0xrouterA";
  gasFeeInReceivingToken := 0;
|}.

(** The prepared transfer "0xtx" on the receiving chain, and the event of its
    fulfilment. *)
Definition txData : TransactionData.t := {|
  TransactionData.invariant := {|
    InvariantTransactionData.receivingChainTxManagerAddress := "0xtxmanager";
    InvariantTransactionData.user := "0xuser";
    InvariantTransactionData.router := "0xrouterA";
    InvariantTransactionData.initiator := "0xuser";
    InvariantTransactionData.sendingAssetId := "0xassetA";
    InvariantTransactionData.receivingAssetId := "0xassetB";
    InvariantTransactionData.sendingChainFallback := "0xuser";
    InvariantTransactionData.callTo := AddressZero;
    InvariantTransactionData.receivingAddress := "0xreceiver";
    InvariantTransactionData.sendingChainId := 1337;
    InvariantTransactionData.receivingChainId := 1338;
    InvariantTransactionData.callDataHash := "keccak256:0x";
    InvariantTransactionData.transactionId := "0xtx";
  |};
  TransactionData.amount := 100;
  TransactionData.expiry := now + 270000;
  TransactionData.preparedBlockNumber := 10;
|}.

Definition prepared : TransactionPreparedEvent.t := {|
  TransactionPreparedEvent.txData := txData;
  TransactionPreparedEvent.encryptedCallData := "0x";
  TransactionPreparedEvent.encodedBid := "bid:0xtx";
  TransactionPreparedEvent.bidSignature := "0xrouterA";
|}.

Definition fulfilled : ReceiverTransactionFulfilled.t := {|
  ReceiverTransactionFulfilled.txData := txData;
  ReceiverTransactionFulfilled.signature := "0xsignature";
  ReceiverTransactionFulfilled.relayerFee := "0";
  ReceiverTransactionFulfilled.callData := "0x";
  ReceiverTransactionFulfilled.caller := "0xrelayer";
  ReceiverTransactionFulfilled.transactionHash := "0xhash";
|}.

End Scenario.


(** ** The constructor and the fee estimate

    The part of the constructor that resolves the configuration of the
    chains (lines 171-244), and [estimateFulfillFee] (lines 903-939). *)

(** [NoTransactionManager], [NoPriceOracle] and [NoSubgraph] of [./error]:
    what the constructor throws. *)
Inductive ConstructionError : Type :=
| NoTransactionManager (chainId : Z)
| NoPriceOracle (chainId : Z)
| NoSubgraph (chainId : Z).

(** The deployments bundled with the package, imported from
    [./transactionManager/transactionManager] and [@connext/nxtp-utils]. A
    contract lookup answers [res.address], [None] standing for an undefined
    [res] or address. *)
Record Deployments : Type := {
  getDeployedTransactionManagerContract : Z -> option string;
  getDeployedPriceOracleContract : Z -> option string;
  getDeployedChainIdsForGasFee : list Z;
  getDeployedSubgraphUri : Z -> option string;
}.

(** An entry of [txManagerConfig]. *)
Module TxManagerChainConfig.
Record t : Type := mk {
  provider : Provider;
  transactionManagerAddress : string;
  priceOracleAddress : string;
}.
End TxManagerChainConfig.

(** An entry of [subgraphConfig]. *)
Module SubgraphChainConfig.
Record t : Type := mk {
  subgraph : string;
  provider : Provider;
  subgraphSyncBuffer : option Z;
}.
End SubgraphChainConfig.

(** [l.includes(x)] on chain ids. *)
Definition includesChain (l : list Z) (x : Z) : bool := List.existsb (Z.eqb x) l.

(** The callback of [Object.entries(chainConfig).forEach], lines 186-237, for
    one chain: the two entries it writes, or the error it throws. *)
Definition configureChain (d : Deployments) (chainId : Z) (c : ChainConfig.t)
  : ConstructionError + (TxManagerChainConfig.t * SubgraphChainConfig.t) :=
  match
    (if negb (truthy (ChainConfig.transactionManagerAddress c)) then
       let res := getDeployedTransactionManagerContract d chainId in
       if negb (truthy res) then inl (NoTransactionManager chainId) else inr res
     else inr (ChainConfig.transactionManagerAddress c))
  with
  | inl e => inl e
  | inr transactionManagerAddress =>
      match
        (if negb (truthy (ChainConfig.priceOracleAddress c))
            && includesChain (getDeployedChainIdsForGasFee d) chainId then
           let res := getDeployedPriceOracleContract d chainId in
           if negb (truthy res) then inl (NoPriceOracle chainId) else inr res
         else inr (ChainConfig.priceOracleAddress c))
      with
      | inl e => inl e
      | inr priceOracleAddress =>
          let subgraph :=
            if negb (truthy (ChainConfig.subgraph c)) then getDeployedSubgraphUri d chainId
            else ChainConfig.subgraph c in
          if negb (truthy subgraph) then inl (NoSubgraph chainId)
          else
            inr ({| TxManagerChainConfig.provider := ChainConfig.provider c;
                    TxManagerChainConfig.transactionManagerAddress :=
                      default "" transactionManagerAddress;
                    TxManagerChainConfig.priceOracleAddress :=
                      if truthy priceOracleAddress then default "" priceOracleAddress
                      else AddressZero |},
                 {| SubgraphChainConfig.subgraph := default "" subgraph;
                    SubgraphChainConfig.provider := ChainConfig.provider c;
                    SubgraphChainConfig.subgraphSyncBuffer :=
                      ChainConfig.subgraphSyncBuffer c |})
      end
  end.

(** The [forEach] over [entries] = [Object.entries(chainConfig)], writing
    [txManagerConfig[chainId]] and [subgraphConfig[chainId]] until a chain
    throws. *)
Fixpoint configureChains (d : Deployments) (entries : list (Z * ChainConfig.t))
    (txManagerConfig : gmap Z TxManagerChainConfig.t)
    (subgraphConfig : gmap Z SubgraphChainConfig.t)
  : ConstructionError + (gmap Z TxManagerChainConfig.t * gmap Z SubgraphChainConfig.t) :=
  match entries with
  | [] => inr (txManagerConfig, subgraphConfig)
  | (chainId, c) :: rest =>
      match configureChain d chainId c with
      | inl e => inl e
      | inr (t, s) =>
          configureChains d rest (<[chainId := t]> txManagerConfig)
                                 (<[chainId := s]> subgraphConfig)
      end
  end.

(** lines 171-237: the configurations handed to [new TransactionManager] and
    [new Subgraph]. *)
Definition constructorConfigs (d : Deployments) (entries : list (Z * ChainConfig.t))
  : ConstructionError + (gmap Z TxManagerChainConfig.t * gmap Z SubgraphChainConfig.t) :=
  configureChains d entries ∅ ∅.

(** [{ ...txData, callDataHash }] *)
Definition withCallDataHash (callDataHash : string) (txData : TransactionData.t)
  : TransactionData.t := {|
  TransactionData.invariant := {|
    InvariantTransactionData.receivingChainTxManagerAddress :=
      InvariantTransactionData.receivingChainTxManagerAddress (TransactionData.invariant txData);
    InvariantTransactionData.user :=
      InvariantTransactionData.user (TransactionData.invariant txData);
    InvariantTransactionData.router :=
      InvariantTransactionData.router (TransactionData.invariant txData);
    InvariantTransactionData.initiator :=
      InvariantTransactionData.initiator (TransactionData.invariant txData);
    InvariantTransactionData.sendingAssetId :=
      InvariantTransactionData.sendingAssetId (TransactionData.invariant txData);
    InvariantTransactionData.receivingAssetId :=
      InvariantTransactionData.receivingAssetId (TransactionData.invariant txData);
    InvariantTransactionData.sendingChainFallback :=
      InvariantTransactionData.sendingChainFallback (TransactionData.invariant txData);
    InvariantTransactionData.callTo :=
      InvariantTransactionData.callTo (TransactionData.invariant txData);
    InvariantTransactionData.receivingAddress :=
      InvariantTransactionData.receivingAddress (TransactionData.invariant txData);
    InvariantTransactionData.sendingChainId :=
      InvariantTransactionData.sendingChainId (TransactionData.invariant txData);
    InvariantTransactionData.receivingChainId :=
      InvariantTransactionData.receivingChainId (TransactionData.invariant txData);
    InvariantTransactionData.callDataHash := callDataHash;
    InvariantTransactionData.transactionId :=
      InvariantTransactionData.transactionId (TransactionData.invariant txData);
  |};
  TransactionData.amount := TransactionData.amount txData;
  TransactionData.expiry := TransactionData.expiry txData;
  TransactionData.preparedBlockNumber := TransactionData.preparedBlockNumber txData;
|}.

(** lines 903-939. [calculateGasInTokenForFullfil] is the method of the
    transaction manager, [keccak256] the one of ethers. *)
Definition estimateFulfillFee (keccak256 : string -> string)
    (calculateGasInTokenForFullfil : Z -> FulfillParams.t -> Remote Z)
    (txData : TransactionData.t) (signatureForFee relayerFee : string) : Outcome Z :=
  gasNeeded ← await (calculateGasInTokenForFullfil
                       (TransactionData.receivingChainId txData)
                       {| FulfillParams.relayerFee := relayerFee;
                          FulfillParams.signature := signatureForFee;
                          FulfillParams.txData := withCallDataHash (keccak256 "0x") txData;
                          FulfillParams.callData := "0x" |});
  _ ← throw_if (gasNeeded =? 0)
        (InvalidParamStructure "calculateGasInToken" "TransactionManager");
  mret gasNeeded.

(** A deployment and three chain configurations to run the constructor on. *)
Module Deployment.

Definition registry : Deployments := {|
  getDeployedTransactionManagerContract :=
    fun chainId => if chainId =? 1337 then Some "0xdeployedmanager" else None;
  getDeployedPriceOracleContract :=
    fun chainId => if chainId =? 1337 then Some "0xdeployedoracle" else None;
  getDeployedChainIdsForGasFee := [1337];
  getDeployedSubgraphUri :=
    fun chainId => if chainId =? 1337 then Some "https://deployed" else None;
|}.

Definition provider : Provider := {| getCode := fun _ => inr "0x" |}.

(** Nothing but the provider is configured. *)
Definition bare : ChainConfig.t := {|
  ChainConfig.provider := provider;
  ChainConfig.transactionManagerAddress := None;
  ChainConfig.priceOracleAddress := None;
  ChainConfig.subgraph := None;
  ChainConfig.subgraphSyncBuffer := None;
|}.

(** The transaction manager and the subgraph are configured. *)
Definition explicit : ChainConfig.t := {|
  ChainConfig.provider := provider;
  ChainConfig.transactionManagerAddress := Some "0xmanager";
  ChainConfig.priceOracleAddress := None;
  ChainConfig.subgraph := Some "https://subgraph";
  ChainConfig.subgraphSyncBuffer := Some 50;
|}.

(** The transaction manager is configured, the subgraph is not. *)
Definition noSubgraph : ChainConfig.t := {|
  ChainConfig.provider := provider;
  ChainConfig.transactionManagerAddress := Some "0xmanager";
  ChainConfig.priceOracleAddress := None;
  ChainConfig.subgraph := None;
  ChainConfig.subgraphSyncBuffer := None;
|}.

End Deployment.

(** ** Predicates of the statements *)

(** [o] is a rejection with [InvalidExpiry]. *)
Definition raises_InvalidExpiry {A} (o : Outcome A) : Prop :=
  exists expiry minBuffer maxBuffer blockTimestamp,
    o = Rejected (InvalidExpiry expiry minBuffer maxBuffer blockTimestamp).

(** The checks of [getTransferQuote] that stand before the one on the expiry
    (lines 323-371) let [params] through. *)
Definition reachesExpiryCheck (lib : Imports) (this : NxtpSdkBase)
    (params : CrossChainParams.t) : Prop :=
  CrossChainParamsSchema lib params = true
  /\ notConfigured this (CrossChainParams.sendingChainId params) = false
  /\ notConfigured this (CrossChainParams.receivingChainId params) = false
  /\ synced (getSubgraphSyncStatus this (CrossChainParams.sendingChainId params)) = true
  /\ synced (getSubgraphSyncStatus this (CrossChainParams.receivingChainId params)) = true
  /\ (MIN_SLIPPAGE_TOLERANCE
      <= default DEFAULT_SLIPPAGE_TOLERANCE (CrossChainParams.slippageTolerance params))%Q
  /\ (default DEFAULT_SLIPPAGE_TOLERANCE (CrossChainParams.slippageTolerance params)
      <= MAX_SLIPPAGE_TOLERANCE)%Q.

(** The bid [data] comes through [validateBid]. *)
Definition passes (lib : Imports) (this : NxtpSdkBase) (a : Auction)
    (data : AuctionResponse) : bool :=
  match validateBid lib this
          (AuctionPayload.receivingChainId (payload a))
          (AuctionPayload.receivingAssetId (payload a))
          (slippageTolerance a) data with
  | Resolved (inr _) => true
  | _ => false
  end.

(** The checks of [prepareTransfer] that stand before the one on [callTo]
    (lines 622-674) let [transferParams] through. *)
Definition reachesCallToCheck (lib : Imports) (this : NxtpSdkBase)
    (transferParams : AuctionResponse) : Prop :=
  synced (getSubgraphSyncStatus this (AuctionBid.sendingChainId (bid transferParams))) = true
  /\ synced (getSubgraphSyncStatus this (AuctionBid.receivingChainId (bid transferParams)))
     = true
  /\ AuctionBidParamsSchema lib (bid transferParams) = true
  /\ notConfigured this (AuctionBid.sendingChainId (bid transferParams)) = false
  /\ notConfigured this (AuctionBid.receivingChainId (bid transferParams)) = false
  /\ truthy (bidSignature transferParams) = true.

(** The relayed branch of [fulfillTransfer] gets as far as awaiting
    [metaTxProm] (line 834): the schema and both chains are fine, messaging
    is or gets connected, and the request is published. *)
Definition reachesMetaTxWait (lib : Imports) (this : NxtpSdkBase)
    (params : TransactionPreparedEvent.t) : Prop :=
  TransactionPrepareEventSchema lib params = true
  /\ notConfigured this
       (TransactionData.sendingChainId (TransactionPreparedEvent.txData params)) = false
  /\ notConfigured this
       (TransactionData.receivingChainId (TransactionPreparedEvent.txData params)) = false
  /\ (isConnected (messaging this) = true \/ is_resolved (connectMessaging this) = true)
  /\ (forall request responseInbox,
        publishMetaTxRequest (messaging this) request responseInbox = inr tt).

(** [l] ascends in [amountReceived]. *)
Definition ascending (l : list AuctionResponse) : Prop :=
  StronglySorted
    (fun x y => AuctionBid.amountReceived (bid x) <= AuctionBid.amountReceived (bid y)) l.

(** The same instance with [p] as the provider of every configured chain. *)
Definition replaceProviders (p : Provider) (this : NxtpSdkBase) : NxtpSdkBase := {|
  config := {|
    chainConfig :=
      (fun c => {|
         ChainConfig.provider := p;
         ChainConfig.transactionManagerAddress := ChainConfig.transactionManagerAddress c;
         ChainConfig.priceOracleAddress := ChainConfig.priceOracleAddress c;
         ChainConfig.subgraph := ChainConfig.subgraph c;
         ChainConfig.subgraphSyncBuffer := ChainConfig.subgraphSyncBuffer c;
       |}) <$> chainConfig (config this);
    signerAddress := signerAddress (config this);
  |};
  transactionManager := transactionManager this;
  messaging := messaging this;
  subgraph := subgraph this;
|}.

(** [e] is among the rejections of [getTransferQuote lib this params]: the
    error of one of its checks, an error of a collaborator, or
    [UnknownAuctionError], raised after the request was published, around
    what the collection or the settling of the bids rejected with. *)
Definition quoteRejection (lib : Imports) (this : NxtpSdkBase) (params : CrossChainParams.t)
    (e : SdkError) : Prop :=
  match e with
  | InvalidParamStructure method typeName =>
      method = "getTransferQuote" /\ typeName = "CrossChainParams"
  | ChainNotConfigured chainId =>
      chainId = CrossChainParams.sendingChainId params
      \/ chainId = CrossChainParams.receivingChainId params
  | SubgraphsNotSynced => True
  | InvalidSlippage slippage =>
      slippage = default DEFAULT_SLIPPAGE_TOLERANCE (CrossChainParams.slippageTolerance params)
  | InvalidExpiry _ _ _ _ => True
  | EncryptionError => True
  | Thrown _ => True
  | UnknownAuctionError transactionId cause =>
      transactionId = default (getRandomBytes32 lib) (CrossChainParams.transactionId params)
      /\ exists a,
           openAuction lib this params = Resolved a
           /\ publishAuctionRequest (messaging this) (payload a) (inbox a) = inr tt
           /\ (auctionBidsPromise lib this a = Rejected cause
               \/ exists auctionResponses,
                    auctionBidsPromise lib this a = Resolved auctionResponses
                    /\ settleAuction lib this a auctionResponses = Rejected cause)
  | NoBids _ | NoValidBids _ _ | InvalidBidSignature _ | InvalidCallTo _ _
  | MetaTxTimeout _ _ => False
  end.

(** The event a relayed [fulfillTransfer] waits for. *)
Definition fulfils (params : TransactionPreparedEvent.t)
    (ev : ReceiverTransactionFulfilled.t) : Prop :=
  TransactionData.transactionId (ReceiverTransactionFulfilled.txData ev)
  = TransactionData.transactionId (TransactionPreparedEvent.txData params).

(** The two instances differ at most in how messaging would connect, and
    both are connected. *)
Definition sameButConnect (this this' : NxtpSdkBase) : Prop :=
  config this' = config this
  /\ transactionManager this' = transactionManager this
  /\ subgraph this' = subgraph this
  /\ isConnected (messaging this) = true
  /\ isConnected (messaging this') = true
  /\ publishAuctionRequest (messaging this') = publishAuctionRequest (messaging this)
  /\ publishMetaTxRequest (messaging this') = publishMetaTxRequest (messaging this)
  /\ posted (messaging this') = posted (messaging this).

(** Further inputs to run the methods on. *)
Module Runs.

(** [Scenario.params None None] with preferred routers. *)
Definition preferring (routers : list string) : CrossChainParams.t := {|
  CrossChainParams.callData := None;
  CrossChainParams.sendingChainId := 1337;
  CrossChainParams.sendingAssetId := "0xassetA";
  CrossChainParams.receivingChainId := 1338;
  CrossChainParams.receivingAssetId := "0xassetB";
  CrossChainParams.callTo := None;
  CrossChainParams.receivingAddress := "0xreceiver";
  CrossChainParams.amount := 100;
  CrossChainParams.expiry := None;
  CrossChainParams.transactionId := Some "0xtx";
  CrossChainParams.slippageTolerance := Some (10 # 100)%Q;
  CrossChainParams.dryRun := None;
  CrossChainParams.preferredRouters := Some routers;
  CrossChainParams.initiator := None;
|}.

(** [Scenario.S1], connected, with a messaging service that could not be
    connected again. *)
Definition unreachable : NxtpSdkBase := {|
  config := config Scenario.S1;
  transactionManager := transactionManager Scenario.S1;
  messaging := {|
    isConnected := true;
    connect := inl "unreachable";
    subscribeToAuctionResponse := inl "unreachable";
    publishAuctionRequest := publishAuctionRequest (messaging Scenario.S1);
    publishMetaTxRequest := publishMetaTxRequest (messaging Scenario.S1);
    posted := posted (messaging Scenario.S1);
  |};
  subgraph := subgraph Scenario.S1;
|}.

(** An instance that no message reaches. *)
Definition silent : NxtpSdkBase := Scenario.sdk (inr 1000) (inr "0x") [] [].

(** Instances whose subgraph sees the fulfilment after [delay] ms. *)
Definition relayed (delay : Z) : NxtpSdkBase :=
  Scenario.sdk (inr 1000) (inr "0x") [] [(delay, Scenario.fulfilled)].

(** Two chains for the constructor, and what it makes of them. *)
Definition entries : list (Z * ChainConfig.t) :=
  [(1337, Deployment.bare); (1338, Deployment.explicit)].

Definition txManagerConfig : gmap Z TxManagerChainConfig.t :=
  match constructorConfigs Deployment.registry entries with
  | inr (t, _) => t
  | inl _ => ∅
  end.

Definition subgraphConfig : gmap Z SubgraphChainConfig.t :=
  match constructorConfigs Deployment.registry entries with
  | inr (_, s) => s
  | inl _ => ∅
  end.

End Runs.

(** ** Promises *)

Lemma bind_Resolved {A B} (m : Outcome A) (k : A -> Outcome B) b :
  m ≫= k = Resolved b -> exists a, m = Resolved a /\ k a = Resolved b.
Proof. destruct m as [a|e]; cbn; [eauto | discriminate]. Qed.

Lemma bind_Rejected {A B} (m : Outcome A) (k : A -> Outcome B) e :
  m ≫= k = Rejected e -> m = Rejected e \/ exists a, m = Resolved a /\ k a = Rejected e.
Proof. destruct m as [a|e']; cbn; [eauto | left; congruence]. Qed.

Lemma throw_if_Resolved c e u : throw_if c e = Resolved u -> c = false.
Proof. destruct c; [discriminate | reflexivity]. Qed.

Lemma throw_if_Rejected c e e' : throw_if c e = Rejected e' -> c = true /\ e' = e.
Proof. destruct c; [intros [= <-]; auto | discriminate]. Qed.

Lemma await_Rejected {A} (p : Remote A) e : await p = Rejected e -> exists m, e = Thrown m.
Proof. destruct p; [intros [= <-]; eauto | discriminate]. Qed.

Lemma try_catch_Rejected {A} (m : Outcome A) h e :
  try_catch m h = Rejected e -> exists e0, m = Rejected e0 /\ h e0 = Rejected e.
Proof. destruct m; [discriminate | eauto]. Qed.

Lemma try_catch_Resolved {A} (m : Outcome A) h a :
  try_catch m h = Resolved a ->
  m = Resolved a \/ exists e0, m = Rejected e0 /\ h e0 = Resolved a.
Proof. destruct m; cbn; [intros [= <-]; auto | eauto]. Qed.

(** [gate H]: the rejection [H] is not the one of the first check. *)
Ltac gate H :=
  apply bind_Rejected in H as [H | (? & ? & H)];
  [ apply throw_if_Rejected in H as [_ [=]] | ].

(** [gate_hit H Hc He]: the rejection [H] is the one of the first check, whose
    condition is [Hc], or comes from what follows. *)
Ltac gate_hit H Hc He :=
  apply bind_Rejected in H as [H | (? & Hc & H)];
  [ apply throw_if_Rejected in H as [Hc He] | apply throw_if_Resolved in Hc ].

(** [pass H Hc]: the first check of the run [H] that resolves let it through. *)
Ltac pass H Hc :=
  apply bind_Resolved in H as (? & Hc & H); apply throw_if_Resolved in Hc.

Lemma Qltb_false x y : (y <= x)%Q -> Qltb x y = false.
Proof. intros H. unfold Qltb. apply Qle_bool_iff in H. now rewrite H. Qed.

(** ** The expiry of a quote *)

Lemma connectMessaging_Rejected this e :
  connectMessaging this = Rejected e -> exists m, e = Thrown m.
Proof.
  unfold connectMessaging. intros H.
  apply bind_Rejected in H as [H | (? & ? & H)]; [ eauto using @await_Rejected |].
  apply bind_Rejected in H as [H | (? & ? & H)]; [ eauto using @await_Rejected |].
  discriminate.
Qed.

(** [InvalidExpiry] leaves [openAuction] at lines 377-383 and nowhere else. *)
Lemma openAuction_InvalidExpiry lib this params x m M t :
  openAuction lib this params = Rejected (InvalidExpiry x m M t) ->
  x = default (getExpiry (getTimestampInSeconds lib)) (CrossChainParams.expiry params)
  /\ m = getMinExpiryBuffer /\ M = getMaxExpiryBuffer /\ t = getTimestampInSeconds lib
  /\ (x - t < m \/ x - t > M).
Proof.
  unfold openAuction. intros H.
  do 6 gate H.
  gate_hit H Hmin He.
  { injection He as -> -> -> ->. repeat split; try reflexivity. left. lia. }
  gate_hit H Hmax He.
  { injection He as -> -> -> ->. repeat split; try reflexivity. right. lia. }
  apply bind_Rejected in H as [H | (? & ? & H)].
  - destruct (_ =? _)%string; [discriminate|].
    apply try_catch_Rejected in H as (? & _ & [=]).
  - apply bind_Rejected in H as [H | (? & ? & H)]; [|discriminate].
    destruct (isConnected _); [discriminate|].
    apply connectMessaging_Rejected in H as [? [=]].
Qed.

Lemma getTransferQuote_Rejected_openAuction lib this params x m M t :
  getTransferQuote lib this params = Rejected (InvalidExpiry x m M t) ->
  openAuction lib this params = Rejected (InvalidExpiry x m M t).
Proof.
  unfold getTransferQuote. intros H.
  apply bind_Rejected in H as [H | (a & _ & H)]; [exact H |].
  apply bind_Rejected in H as [H | (? & _ & H)].
  - apply await_Rejected in H as [? [=]].
  - apply try_catch_Rejected in H as (? & _ & [=]).
Qed.

Lemma openAuction_expiry_out lib this params :
  reachesExpiryCheck lib this params ->
  let now := getTimestampInSeconds lib in
  let expiry := default (getExpiry now) (CrossChainParams.expiry params) in
  expiry - now < getMinExpiryBuffer \/ expiry - now > getMaxExpiryBuffer ->
  openAuction lib this params
  = Rejected (InvalidExpiry expiry getMinExpiryBuffer getMaxExpiryBuffer now).
Proof.
  intros (Hs & Hc1 & Hc2 & Hy1 & Hy2 & Hlo & Hhi) now expiry Hout.
  unfold openAuction. rewrite Hs, Hc1, Hc2, Hy1, Hy2. cbn.
  rewrite (Qltb_false _ _ Hlo), (Qltb_false _ _ Hhi). cbn.
  fold now. fold expiry.
  destruct (expiry - now <? getMinExpiryBuffer) eqn:Hmin; cbn; [reflexivity |].
  destruct (expiry - now >? getMaxExpiryBuffer) eqn:Hmax; cbn; [reflexivity |].
  lia.
Qed.

(** C7. When [params.expiry] is given and the checks before the one on the
    expiry let the call through, [getTransferQuote] rejects with
    [InvalidExpiry] exactly when [expiry - now] is below 2 days + 1 hour or
    above 4 days, [now] being [getTimestampInSeconds()]; the two bounds are
    176400 s and 345600 s, and both are accepted since the comparisons are
    strict. *)
Theorem getTransferQuote_InvalidExpiry_iff lib this params expiry :
  CrossChainParams.expiry params = Some expiry ->
  reachesExpiryCheck lib this params ->
  (raises_InvalidExpiry (getTransferQuote lib this params)
   <-> expiry - getTimestampInSeconds lib < daysToSeconds 2 + hoursToSeconds 1
       \/ expiry - getTimestampInSeconds lib > daysToSeconds 4)
  /\ daysToSeconds 2 + hoursToSeconds 1 = 176400
  /\ daysToSeconds 4 = 345600.
Proof.
  intros He Hreach. split; [| split; reflexivity]. split.
  - intros (x & m & M & t & H).
    apply getTransferQuote_Rejected_openAuction, openAuction_InvalidExpiry in H.
    rewrite He in H. cbn in H. destruct H as (-> & -> & -> & -> & H). exact H.
  - intros Hout.
    pose proof (openAuction_expiry_out lib this params Hreach) as H.
    rewrite He in H. cbn in H. specialize (H Hout).
    unfold getTransferQuote. rewrite H. cbn. do 4 eexists. reflexivity.
Qed.


(** ** Sorting *)

Lemma sort_insert_elem {A} (cmp : A -> A -> Z) x y (s : list A) :
  y ∈ sort_insert cmp x s <-> y = x \/ y ∈ s.
Proof.
  induction s as [| z s IH]; cbn.
  - rewrite list_elem_of_singleton, elem_of_nil. tauto.
  - destruct (cmp x z <? 0).
    + rewrite elem_of_cons. tauto.
    + rewrite !elem_of_cons, IH. tauto.
Qed.

Lemma Array_sort_elem {A} (cmp : A -> A -> Z) y (l : list A) :
  y ∈ Array_sort cmp l <-> y ∈ l.
Proof.
  unfold Array_sort.
  enough (forall acc, y ∈ fold_left (fun sorted x => sort_insert cmp x sorted) l acc
                      <-> y ∈ l \/ y ∈ acc) as H.
  { rewrite H, elem_of_nil. tauto. }
  induction l as [| x l IH]; intros acc; cbn.
  - rewrite elem_of_nil. tauto.
  - rewrite IH, sort_insert_elem, elem_of_cons. tauto.
Qed.

Lemma hd_elem {A} (d : A) (l : list A) : l <> [] -> List.hd d l ∈ l.
Proof. destruct l; [congruence | intros _; apply list_elem_of_here]. Qed.

Lemma Array_sort_nonempty {A} (cmp : A -> A -> Z) (l : list A) :
  l <> [] -> Array_sort cmp l <> [].
Proof.
  destruct l as [| x l]; [congruence |]. intros _ H.
  assert (x ∈ Array_sort cmp (x :: l)) as Hx
    by (apply Array_sort_elem, list_elem_of_here).
  rewrite H in Hx. now apply elem_of_nil in Hx.
Qed.

Lemma sort_insert_ascending x (s : list AuctionResponse) :
  ascending s -> ascending (sort_insert compareBids x s).
Proof.
  unfold ascending. induction 1 as [| y s Hs IH Hy]; cbn.
  - repeat constructor.
  - unfold compareBids at 1.
    destruct (_ >? _) eqn:Hgt; cbn.
    + constructor; [constructor; assumption |].
      constructor; [lia |].
      apply Forall_forall. intros z Hz.
      rewrite Forall_forall in Hy. specialize (Hy z Hz). cbn in Hy. lia.
    + constructor; [exact IH |].
      apply Forall_forall. intros z Hz.
      apply sort_insert_elem in Hz as [-> | Hz]; [lia |].
      rewrite Forall_forall in Hy. now apply Hy.
Qed.

Lemma Array_sort_ascending (l : list AuctionResponse) :
  ascending (Array_sort compareBids l).
Proof.
  unfold Array_sort.
  enough (forall acc, ascending acc ->
            ascending (fold_left (fun sorted x => sort_insert compareBids x sorted) l acc))
    as H by (apply H; constructor).
  induction l as [| x l IH]; intros acc Hacc; cbn; [exact Hacc |].
  apply IH, sort_insert_ascending, Hacc.
Qed.

(** The head of the sorted survivors, the bid that line 565 picks, is a
    survivor with the least [amountReceived]. *)
Lemma chosen_is_minimum (v : AuctionResponse) (l : list AuctionResponse) :
  l <> [] ->
  List.hd v (Array_sort compareBids l) ∈ l
  /\ forall d, d ∈ l ->
       AuctionBid.amountReceived (bid (List.hd v (Array_sort compareBids l)))
       <= AuctionBid.amountReceived (bid d).
Proof.
  intros Hne. split.
  - apply (Array_sort_elem compareBids), hd_elem, Array_sort_nonempty, Hne.
  - intros d Hd. apply (Array_sort_elem compareBids) in Hd.
    pose proof (Array_sort_ascending l) as Hs.
    destruct (Array_sort compareBids l) as [| c rest]; [now apply elem_of_nil in Hd |].
    cbn. apply elem_of_cons in Hd as [-> | Hd]; [lia |].
    apply StronglySorted_inv in Hs as [_ Hc].
    rewrite Forall_forall in Hc. now apply Hc.
Qed.

(** ** Validation of the bids *)

Lemma Promise_all_Resolved {A} (ps : list (Outcome A)) (l : list A) :
  Promise_all ps = Resolved l <-> ps = List.map Resolved l.
Proof.
  revert l. induction ps as [| p ps IH]; intros l; cbn.
  - split.
    + now intros [= <-].
    + destruct l; [reflexivity | discriminate].
  - destruct p as [x | e]; cbn.
    + destruct (Promise_all ps) as [l' | e'] eqn:Hps; cbn.
      * split.
        -- intros [= <-]. cbn. f_equal. now apply IH.
        -- destruct l as [| y l]; [discriminate |]. cbn. intros [= -> Hl].
           apply IH in Hl. now injection Hl as ->.
      * split; [discriminate |].
        destruct l as [| y l]; [discriminate |]. cbn. intros [= -> Hl].
        now apply IH in Hl.
    + split; [discriminate |]. destruct l; discriminate.
Qed.


(** A check of a bid rejects only when the signature cannot be read. *)
Lemma validateBid_Rejected lib this c asset slippage data e :
  validateBid lib this c asset slippage data = Rejected e <->
  exists m, e = Thrown m
            /\ recoverAuctionBid lib (bid data) (default "" (bidSignature data)) = inl m.
Proof.
  unfold validateBid.
  destruct (recoverAuctionBid _ _ _) as [m | signer]; cbn.
  - split; [intros [= <-]; eauto | now intros (? & -> & [= ->])].
  - split; [| now intros (? & _ & [=])].
    destruct (negb (signer =? _)%string); cbn; [discriminate |].
    destruct (getRouterLiquidity _ _ _ _); cbn; [discriminate |].
    destruct (_ <? _); cbn; [discriminate |].
    destruct (_ <? _); discriminate.
Qed.

Lemma validateBid_inr lib this c asset slippage data d :
  validateBid lib this c asset slippage data = Resolved (inr d) ->
  d = data
  /\ recoverAuctionBid lib (bid data) (default "" (bidSignature data))
     = inr (AuctionBid.router (bid data)).
Proof.
  unfold validateBid. intros H.
  destruct (recoverAuctionBid _ _ _) as [m | signer]; cbn in H; [discriminate |].
  destruct (String.eqb signer _) eqn:Hsig; cbn in H; [| discriminate].
  apply String.eqb_eq in Hsig. subst signer.
  destruct (getRouterLiquidity _ _ _ _); cbn in H; [discriminate |].
  destruct (_ <? _); cbn in H; [discriminate |].
  destruct (_ <? _); cbn in H; [discriminate |].
  injection H as <-. auto.
Qed.

(** [filtered] holds the verdicts on the collected bids, one by one and in
    the order of arrival. *)
Lemma filtered_Resolved lib this a (rs : list AuctionResponse) f :
  filtered lib this a rs = Resolved f <->
  Forall2 (fun d x => validateBid lib this
                        (AuctionPayload.receivingChainId (payload a))
                        (AuctionPayload.receivingAssetId (payload a))
                        (slippageTolerance a) d = Resolved x) rs f.
Proof.
  unfold filtered. rewrite Promise_all_Resolved.
  revert f. induction rs as [| d rs IH]; intros f; cbn.
  - split.
    + destruct f; [constructor | discriminate].
    + now inversion 1.
  - split.
    + destruct f as [| x f]; [discriminate |]. cbn. intros [= Hd Hf].
      constructor; [exact Hd | now apply IH].
    + inversion 1 as [| ? x ? f' Hd Hf]; subst. cbn. f_equal; [exact Hd | now apply IH].
Qed.


(** The survivors are the collected bids that pass, each judged on its own
    and in the order of arrival. *)
Lemma valid_filter lib this a (rs : list AuctionResponse) f :
  filtered lib this a rs = Resolved f ->
  valid f = List.filter (passes lib this a) rs.
Proof.
  rewrite filtered_Resolved. unfold valid.
  induction 1 as [| d x rs f Hd _ IH]; [reflexivity |].
  cbn. unfold passes at 1. rewrite Hd.
  destruct x as [msg | d']; cbn.
  - exact IH.
  - apply validateBid_inr in Hd as [-> _]. now rewrite IH.
Qed.

Lemma valid_signed lib this a d (rs : list AuctionResponse) f :
  filtered lib this a rs = Resolved f ->
  d ∈ valid f ->
  d ∈ rs
  /\ recoverAuctionBid lib (bid d) (default "" (bidSignature d))
     = inr (AuctionBid.router (bid d)).
Proof.
  intros Hf. rewrite (valid_filter _ _ _ _ _ Hf), list_elem_of_In, filter_In, <- list_elem_of_In.
  intros [Hin Hp]. split; [exact Hin |].
  unfold passes in Hp.
  destruct (validateBid _ _ _ _ _ d) as [[| d'] |] eqn:Hd; try discriminate.
  now apply validateBid_inr in Hd as [_ ?].
Qed.





(** ** The slippage gate *)

Lemma floor_scaled_le (x : Z) (rate : Q) (bound : Z) :
  (0 <= rate <= 1)%Q -> x <= bound -> 0 <= bound ->
  Qfloor (inject_Z x * rate) <= bound.
Proof.
  intros [H0 H1] Hx Hb.
  destruct (Z.le_gt_cases 0 x) as [Hpos | Hneg].
  - transitivity (Qfloor (inject_Z x)); [| rewrite Qfloor_Z; exact Hx].
    apply Qfloor_resp_le.
    assert (0 <= inject_Z x)%Q as Hq
      by (change (inject_Z 0 <= inject_Z x)%Q; rewrite <- Zle_Qle; exact Hpos).
    nra.
  - transitivity (Qfloor (inject_Z 0)); [| rewrite Qfloor_Z; exact Hb].
    apply Qfloor_resp_le.
    assert (inject_Z x <= 0)%Q as Hq
      by (change (inject_Z x <= inject_Z 0)%Q; rewrite <- Zle_Qle; lia).
    change (inject_Z 0) with 0%Q. nra.
Qed.

Lemma lowerBoundExchangeRate_bounds (s : Q) :
  (MIN_SLIPPAGE_TOLERANCE <= s)%Q -> (s <= MAX_SLIPPAGE_TOLERANCE)%Q ->
  (0 <= 1 - s / 100 <= 1)%Q.
Proof.
  unfold MIN_SLIPPAGE_TOLERANCE, MAX_SLIPPAGE_TOLERANCE. intros.
  unfold Qdiv. change (/ 100)%Q with (1 # 100)%Q. split; lra.
Qed.

(** C4. For a bid whose [amountReceived] and [gasFeeInReceivingToken] are
    not negative and a slippage tolerance between 0.01 and 15.00, the lower
    bound floor((amountReceived - gasFeeInReceivingToken) x (1 -
    slippageTolerance/100)) does not exceed [amountReceived], so
    [validateBid] never answers "Invalid bid price". *)
Theorem slippage_lower_bound_le_amountReceived lib this c asset (s : Q) data :
  0 <= AuctionBid.amountReceived (bid data) ->
  0 <= gasFeeInReceivingToken data ->
  (MIN_SLIPPAGE_TOLERANCE <= s)%Q ->
  (s <= MAX_SLIPPAGE_TOLERANCE)%Q ->
  integerPortion
    (calculateExchangeAmount
       (AuctionBid.amountReceived (bid data) - gasFeeInReceivingToken data)
       (1 - s / 100))
  <= AuctionBid.amountReceived (bid data)
  /\ validateBid lib this c asset s data
     <> Resolved
          (inl "Invalid bid price: price impact is more than the slippage tolerance").
Proof.
  intros Ha Hg Hlo Hhi.
  assert (integerPortion
            (calculateExchangeAmount
               (AuctionBid.amountReceived (bid data) - gasFeeInReceivingToken data)
               (1 - s / 100))
          <= AuctionBid.amountReceived (bid data)) as Hbound.
  { unfold integerPortion, calculateExchangeAmount.
    apply floor_scaled_le; [now apply lowerBoundExchangeRate_bounds | lia | exact Ha]. }
  split; [exact Hbound |].
  unfold validateBid.
  destruct (recoverAuctionBid _ _ _) as [m | signer];
    cbn [mbind mret Outcome_bind Outcome_ret await]; [discriminate |].
  destruct (negb (signer =? _)%string); [discriminate |].
  destruct (getRouterLiquidity _ _ _ _); cbn [await mret Outcome_ret]; [discriminate |].
  destruct (_ <? _); [discriminate |].
  destruct (_ <? _) eqn:Hlt; [| discriminate].
  apply Z.ltb_lt in Hlt. lia.
Qed.

(** C2, as the code has it. A bid with [amountReceived] = 40 and
    [gasFeeInReceivingToken] = 1 whose signature and liquidity pass comes
    through the slippage gate under a tolerance of 0.10: the lower bound is
    floor(39 x 0.999) = 38, not above 40, and an open auction that collected
    this bid alone settles on it. *)
Theorem slippage_gate_accepts_bid_of_40 lib this a data liquidity :
  AuctionPayload.dryRun (payload a) = false ->
  (slippageTolerance a == 10 # 100)%Q ->
  AuctionBid.amountReceived (bid data) = 40 ->
  gasFeeInReceivingToken data = 1 ->
  recoverAuctionBid lib (bid data) (default "" (bidSignature data))
  = inr (AuctionBid.router (bid data)) ->
  getRouterLiquidity (transactionManager this)
    (AuctionPayload.receivingChainId (payload a)) (AuctionBid.router (bid data))
    (AuctionPayload.receivingAssetId (payload a)) = inr liquidity ->
  40 <= liquidity ->
  integerPortion (calculateExchangeAmount (40 - 1) (1 - slippageTolerance a / 100)) = 38
  /\ validateBid lib this
       (AuctionPayload.receivingChainId (payload a))
       (AuctionPayload.receivingAssetId (payload a))
       (slippageTolerance a) data = Resolved (inr data)
  /\ settleAuction lib this a [data] = Resolved data.
Proof.
  intros Hdry Hs Hamt Hgas Hsig Hliq Hle.
  assert (integerPortion (calculateExchangeAmount (40 - 1) (1 - slippageTolerance a / 100))
          = 38) as Hlb.
  { unfold integerPortion, calculateExchangeAmount.
    rewrite (Qfloor_comp _ (inject_Z 39 * (1 - (10 # 100) / 100))%Q); [reflexivity |].
    now rewrite Hs. }
  assert (validateBid lib this
            (AuctionPayload.receivingChainId (payload a))
            (AuctionPayload.receivingAssetId (payload a))
            (slippageTolerance a) data = Resolved (inr data)) as Hv.
  { unfold validateBid. rewrite Hsig. cbn [mbind mret Outcome_bind Outcome_ret await].
    rewrite String.eqb_refl, Hliq, Hamt, Hgas. cbn [negb await].
    replace (liquidity <? 40) with false by (symmetry; apply Z.ltb_ge; lia).
    rewrite Hlb. reflexivity. }
  repeat split; [exact Hlb | exact Hv |].
  unfold settleAuction, filtered. rewrite Hdry. cbn [List.map Promise_all].
  rewrite Hv. reflexivity.
Qed.

(** ** The auction *)

(** What a resolved [openAuction] has put in the auction. *)
Lemma openAuction_Resolved lib this params a :
  openAuction lib this params = Resolved a ->
  AuctionPayload.dryRun (payload a) = default false (CrossChainParams.dryRun params)
  /\ AuctionPayload.callDataHash (payload a)
     = keccak256 lib (default "0x" (CrossChainParams.callData params))
  /\ slippageTolerance a
     = default DEFAULT_SLIPPAGE_TOLERANCE (CrossChainParams.slippageTolerance params)
  /\ AuctionPayload.receivingChainId (payload a) = CrossChainParams.receivingChainId params
  /\ AuctionPayload.receivingAssetId (payload a) = CrossChainParams.receivingAssetId params.
Proof.
  unfold openAuction. intros H.
  do 8 (let Hc := fresh "Hc" in pass H Hc).
  apply bind_Resolved in H as (enc & _ & H).
  apply bind_Resolved in H as (tok & _ & H).
  injection H as <-. cbn. repeat split; reflexivity.
Qed.

(** A quote that resolves went through the three stages. *)
Lemma getTransferQuote_Resolved lib this params r :
  getTransferQuote lib this params = Resolved r ->
  exists a auctionResponses,
    openAuction lib this params = Resolved a
    /\ auctionBidsPromise lib this a = Resolved auctionResponses
    /\ settleAuction lib this a auctionResponses = Resolved r.
Proof.
  unfold getTransferQuote. intros H.
  apply bind_Resolved in H as (a & Ha & H).
  apply bind_Resolved in H as (u & _ & H).
  apply try_catch_Resolved in H as [H | (? & _ & [=])].
  apply bind_Resolved in H as (rs & Hrs & H).
  eauto.
Qed.

(** Outside a dry run the auction settles on a survivor, and on one with the
    least [amountReceived]. *)
Lemma settleAuction_Resolved lib this a rs r :
  AuctionPayload.dryRun (payload a) = false ->
  settleAuction lib this a rs = Resolved r ->
  exists f,
    filtered lib this a rs = Resolved f
    /\ r ∈ valid f
    /\ forall d, d ∈ valid f ->
         AuctionBid.amountReceived (bid r) <= AuctionBid.amountReceived (bid d).
Proof.
  unfold settleAuction. intros Hdry H.
  destruct rs as [| first rest]; [discriminate |].
  rewrite Hdry in H.
  apply bind_Resolved in H as (f & Hf & H).
  exists f. split; [exact Hf |].
  destruct (valid f) as [| v vs] eqn:Hv; [discriminate |].
  injection H as <-. apply chosen_is_minimum. discriminate.
Qed.

(** C3, as the code has it. Every [getTransferQuote] that resolves outside a
    dry run, with or without preferred routers, answers a response whose
    signature recovers to the router of its bid:
    [recoverAuctionBid(bid, bidSignature ?? "") == bid.router]. A dry run
    answers the first bid it receives, unvalidated. *)
Theorem getTransferQuote_signed_unless_dryRun lib this params r :
  default false (CrossChainParams.dryRun params) = false ->
  getTransferQuote lib this params = Resolved r ->
  recoverAuctionBid lib (bid r) (default "" (bidSignature r))
  = inr (AuctionBid.router (bid r)).
Proof.
  intros Hdry H.
  apply getTransferQuote_Resolved in H as (a & rs & Ha & _ & Hr).
  apply openAuction_Resolved in Ha as (Hd & _).
  rewrite Hdry in Hd.
  apply (settleAuction_Resolved _ _ _ _ _ Hd) in Hr as (f & Hf & Hin & _).
  now apply (valid_signed _ _ _ _ _ _ Hf) in Hin as [_ ?].
Qed.

(** The bid an open auction settles on has the least [amountReceived] of
    the survivors. *)
Lemma getTransferQuote_chooses_minimum lib this params r :
  default false (CrossChainParams.dryRun params) = false ->
  getTransferQuote lib this params = Resolved r ->
  exists a auctionResponses verdicts,
    openAuction lib this params = Resolved a
    /\ auctionBidsPromise lib this a = Resolved auctionResponses
    /\ filtered lib this a auctionResponses = Resolved verdicts
    /\ r ∈ valid verdicts
    /\ forall d, d ∈ valid verdicts ->
         AuctionBid.amountReceived (bid r) <= AuctionBid.amountReceived (bid d).
Proof.
  intros Hdry H.
  apply getTransferQuote_Resolved in H as (a & rs & Ha & Hrs & Hr).
  pose proof Ha as Hd.
  apply openAuction_Resolved in Hd as (Hd & _). rewrite Hdry in Hd.
  apply (settleAuction_Resolved _ _ _ _ _ Hd) in Hr as (f & Hf & Hin & Hmin).
  exists a, rs, f. auto.
Qed.

(** ** prepareTransfer *)

Lemma prepareParams_Resolved lib this transferParams p :
  prepareParams lib this transferParams = Resolved p ->
  InvariantTransactionData.sendingChainFallback (PrepareParams.txData p)
  = InvariantTransactionData.user (PrepareParams.txData p)
  /\ InvariantTransactionData.user (PrepareParams.txData p)
     = AuctionBid.user (bid transferParams)
  /\ InvariantTransactionData.callDataHash (PrepareParams.txData p)
     = AuctionBid.callDataHash (bid transferParams).
Proof.
  unfold prepareParams. intros H.
  do 5 (let Hc := fresh "Hc" in pass H Hc).
  apply bind_Resolved in H as (u & _ & H).
  injection H as <-. cbn. repeat split; reflexivity.
Qed.

(** C6, as the code has it. For every [prepareTransfer] that resolves, the
    [txData] handed to the transaction manager has [sendingChainFallback] =
    [user] = the user of the bid, and its [callDataHash] is the one of the
    bid, copied as it is. The payload that [getTransferQuote] publishes
    carries [keccak256(callData ?? "0x")]; the [txData] has that hash
    whenever the bid carries the hash of the payload. *)
Theorem prepareTransfer_txData lib this transferParams tx :
  prepareTransfer lib this transferParams = Resolved tx ->
  exists p,
    prepareParams lib this transferParams = Resolved p
    /\ prepare (transactionManager this)
         (AuctionBid.sendingChainId (bid transferParams)) p = inr tx
    /\ InvariantTransactionData.sendingChainFallback (PrepareParams.txData p)
       = InvariantTransactionData.user (PrepareParams.txData p)
    /\ InvariantTransactionData.user (PrepareParams.txData p)
       = AuctionBid.user (bid transferParams)
    /\ InvariantTransactionData.callDataHash (PrepareParams.txData p)
       = AuctionBid.callDataHash (bid transferParams)
    /\ forall params a,
         openAuction lib this params = Resolved a ->
         AuctionPayload.callDataHash (payload a)
         = keccak256 lib (default "0x" (CrossChainParams.callData params))
         /\ (AuctionBid.callDataHash (bid transferParams)
             = AuctionPayload.callDataHash (payload a) ->
             InvariantTransactionData.callDataHash (PrepareParams.txData p)
             = keccak256 lib (default "0x" (CrossChainParams.callData params))).
Proof.
  unfold prepareTransfer. intros H.
  apply bind_Resolved in H as (p & Hp & H).
  exists p. split; [exact Hp |]. split.
  { destruct (prepare _ _ _); [discriminate | now injection H as ->]. }
  apply prepareParams_Resolved in Hp as (Hf & Hu & Hh).
  do 3 (split; [assumption |]).
  intros params a Ha. apply openAuction_Resolved in Ha as (_ & Hk & _).
  split; [exact Hk | congruence].
Qed.

Lemma notConfigured_replaceProviders p this chainId :
  notConfigured (replaceProviders p this) chainId = notConfigured this chainId.
Proof.
  unfold notConfigured, replaceProviders. cbn. rewrite lookup_fmap.
  now destruct (chainConfig (config this) !! chainId).
Qed.

(** C8. When the checks before it let the call through and [callTo] is not
    the zero address, a provider of the receiving chain that reports no code
    at [callTo] (the empty string or "0x") makes [prepareTransfer] reject
    with [InvalidCallTo]. When [callTo] is the zero address the provider is
    not consulted: whatever the providers are, the outcome is the same. *)
Theorem prepareTransfer_InvalidCallTo lib this transferParams :
  (forall c code,
     reachesCallToCheck lib this transferParams ->
     AuctionBid.callTo (bid transferParams) <> AddressZero ->
     chainConfig (config this) !! AuctionBid.receivingChainId (bid transferParams) = Some c ->
     getCode (ChainConfig.provider c) (AuctionBid.callTo (bid transferParams)) = inr code ->
     code = "" \/ code = "0x" ->
     prepareTransfer lib this transferParams
     = Rejected (InvalidCallTo (AuctionBid.transactionId (bid transferParams))
                               (AuctionBid.callTo (bid transferParams))))
  /\ (AuctionBid.callTo (bid transferParams) = AddressZero ->
      forall p,
        prepareTransfer lib (replaceProviders p this) transferParams
        = prepareTransfer lib this transferParams).
Proof.
  split.
  - intros c code (Hy1 & Hy2 & Hs & Hc1 & Hc2 & Hsig) Hto Hc Hcode Hempty.
    unfold prepareTransfer, prepareParams.
    rewrite Hy1, Hy2, Hs, Hc1, Hc2, Hsig. cbn.
    apply String.eqb_neq in Hto. rewrite Hto, Hc, Hcode. cbn.
    now destruct Hempty as [-> | ->].
  - intros Hzero p.
    unfold prepareTransfer, prepareParams.
    rewrite !notConfigured_replaceProviders, Hzero, String.eqb_refl.
    reflexivity.
Qed.

(** ** fulfillTransfer *)

Lemma find_none_iff {A} (f : A -> bool) (l : list A) :
  List.find f l = None <-> forall x, x ∈ l -> f x = false.
Proof.
  induction l as [| y l IH]; cbn.
  - split; [intros _ x Hx; now apply elem_of_nil in Hx | reflexivity].
  - destruct (f y) eqn:Hy.
    + split; [discriminate |]. intros H.
      specialize (H y (list_elem_of_here _ _)). congruence.
    + rewrite IH. split.
      * intros H x Hx. apply elem_of_cons in Hx as [-> | Hx]; auto.
      * intros H x Hx. apply H. now apply list_elem_of_further.
Qed.

Lemma find_some_elem {A} (f : A -> bool) (l : list A) x :
  List.find f l = Some x -> x ∈ l /\ f x = true.
Proof.
  intros H. apply find_some in H as [Hin Hf].
  split; [now apply list_elem_of_In | exact Hf].
Qed.

(** [waitFor] rejects, with the timeout error of [evt], when no event on
    which the filter holds arrives before the deadline; it resolves with such
    an event when there is one. *)
Lemma evt_waitFor_timeout {A} (stream : list (Z * A)) filter timeout :
  (forall t a, (t, a) ∈ stream -> t < timeout -> filter a = false) ->
  evt_waitFor stream filter timeout = Rejected (EvtTimeout timeout).
Proof.
  intros H. unfold evt_waitFor.
  replace (List.find _ stream) with (@None (Z * A)); [reflexivity |].
  symmetry. apply find_none_iff. intros [t a] Hin.
  destruct (t <? timeout) eqn:Ht; [| reflexivity].
  apply Z.ltb_lt in Ht. cbn. eauto.
Qed.

Lemma evt_waitFor_arrival {A} (stream : list (Z * A)) filter timeout t a :
  (t, a) ∈ stream -> t < timeout -> filter a = true ->
  exists t' a', (t', a') ∈ stream /\ t' < timeout /\ filter a' = true
                /\ evt_waitFor stream filter timeout = Resolved a'.
Proof.
  intros Hin Ht Hf. unfold evt_waitFor.
  destruct (List.find _ stream) as [[t' a'] |] eqn:Hfind.
  - apply find_some_elem in Hfind as [Hin' Hok].
    apply andb_true_iff in Hok as [Ht' Hf']. apply Z.ltb_lt in Ht'.
    exists t', a'. auto.
  - rewrite find_none_iff in Hfind. specialize (Hfind _ Hin). cbn in Hfind.
    apply Z.ltb_lt in Ht. rewrite Ht, Hf in Hfind. discriminate.
Qed.

(** C9. With [useRelayers] true (given or by default) and the call as far as
    awaiting the event: when no [ReceiverTransactionFulfilled] event with
    the [transactionId] of the transfer arrives within [META_TX_TIMEOUT] =
    300000 ms of the registration, [fulfillTransfer] rejects with
    [MetaTxTimeout]; when one arrives before the deadline it resolves with
    the [metaTxResponse] of such an event: its transaction hash and
    receiving chain. *)
Theorem fulfillTransfer_MetaTxTimeout lib this params fulfillSignature decryptedCallData
    relayerFee useRelayers :
  default true useRelayers = true ->
  reachesMetaTxWait lib this params ->
  META_TX_TIMEOUT = 300000
  /\ ((forall t ev,
         (t, ev) ∈ fulfilledEvents (subgraph this) -> t < META_TX_TIMEOUT ->
         TransactionData.transactionId (ReceiverTransactionFulfilled.txData ev)
         <> TransactionData.transactionId (TransactionPreparedEvent.txData params)) ->
      fulfillTransfer lib this params fulfillSignature decryptedCallData relayerFee useRelayers
      = Rejected (MetaTxTimeout
                    (TransactionData.transactionId (TransactionPreparedEvent.txData params))
                    META_TX_TIMEOUT))
  /\ (forall t ev,
        (t, ev) ∈ fulfilledEvents (subgraph this) -> t < META_TX_TIMEOUT ->
        TransactionData.transactionId (ReceiverTransactionFulfilled.txData ev)
        = TransactionData.transactionId (TransactionPreparedEvent.txData params) ->
        exists t' ev',
          (t', ev') ∈ fulfilledEvents (subgraph this) /\ t' < META_TX_TIMEOUT
          /\ TransactionData.transactionId (ReceiverTransactionFulfilled.txData ev')
             = TransactionData.transactionId (TransactionPreparedEvent.txData params)
          /\ fulfillTransfer lib this params fulfillSignature decryptedCallData
               relayerFee useRelayers
             = Resolved {|
                 fulfillRequest := None;
                 metaTxResponse := Some {|
                   transactionHash := ReceiverTransactionFulfilled.transactionHash ev';
                   chainId :=
                     TransactionData.receivingChainId
                       (ReceiverTransactionFulfilled.txData ev');
                 |};
               |}).
Proof.
  intros Hrelay (Hs & Hc1 & Hc2 & Hconn & Hpub).
  assert (exists token,
            (if isConnected (messaging this) then mret "" else connectMessaging this)
            = Resolved token) as [token Htoken].
  { destruct (isConnected (messaging this)); [eexists; reflexivity |].
    destruct Hconn as [[=] | Hconn].
    destruct (connectMessaging this); [eauto | discriminate]. }
  split; [reflexivity |]. split.
  - intros Hnone.
    unfold fulfillTransfer. rewrite Hrelay, Hs, Hc1, Hc2. cbn [negb throw_if mbind Outcome_bind].
    rewrite Htoken, Hpub. cbn [await mbind Outcome_bind].
    unfold Subgraph_waitFor. rewrite evt_waitFor_timeout; [reflexivity |].
    intros t ev Hin Ht. apply String.eqb_neq. eauto.
  - intros t ev Hin Ht Hid.
    destruct (evt_waitFor_arrival (fulfilledEvents (subgraph this))
                (fun data =>
                   (TransactionData.transactionId (ReceiverTransactionFulfilled.txData data)
                    =? TransactionData.transactionId (TransactionPreparedEvent.txData params))%string)
                META_TX_TIMEOUT t ev Hin Ht)
      as (t' & ev' & Hin' & Ht' & Hid' & Hwait).
    { now apply String.eqb_eq. }
    exists t', ev'. repeat split; [exact Hin' | exact Ht' | now apply String.eqb_eq |].
    unfold fulfillTransfer. rewrite Hrelay, Hs, Hc1, Hc2. cbn [negb throw_if mbind Outcome_bind].
    rewrite Htoken, Hpub. cbn [await mbind Outcome_bind].
    unfold Subgraph_waitFor. rewrite Hwait. reflexivity.
Qed.

(** ** The scenarios of the specification, run *)

(** C1. On S1 (bids of 100 and of 101, both valid, both collected) the
    open auction of [getTransferQuote] answers the bid of 100: both bids
    survive, and the head of the sorted survivors is the one with the
    smaller [amountReceived]. *)
Theorem getTransferQuote_S1_answers_bid_of_100 :
  auctionBidsPromise Scenario.lib Scenario.S1 Scenario.auction
  = Resolved [Scenario.bid100; Scenario.bid101]
  /\ filtered Scenario.lib Scenario.S1 Scenario.auction [Scenario.bid100; Scenario.bid101]
     = Resolved [inr Scenario.bid100; inr Scenario.bid101]
  /\ valid [inr Scenario.bid100; inr Scenario.bid101]
     = [Scenario.bid100; Scenario.bid101]
  /\ Array_sort compareBids [Scenario.bid100; Scenario.bid101]
     = [Scenario.bid100; Scenario.bid101]
  /\ getTransferQuote Scenario.lib Scenario.S1 (Scenario.params None None)
     = Resolved Scenario.bid100
  /\ AuctionBid.amountReceived (bid Scenario.bid100)
     < AuctionBid.amountReceived (bid Scenario.bid101).
Proof. repeat split; vm_compute; reflexivity. Qed.

(** The same two bids in the other order of arrival: the bid of 100 again. *)
Example getTransferQuote_S1_swapped :
  getTransferQuote Scenario.lib
    (Scenario.sdk (inr 1000) (inr "0x")
       [Scenario.post 1000 Scenario.bid101; Scenario.post 2000 Scenario.bid100] [])
    (Scenario.params None None)
  = Resolved Scenario.bid100.
Proof. vm_compute. reflexivity. Qed.

(** C2, the scenario as the specification words it: the bid of 40 is not
    turned down, and the quote resolves with it. *)
Lemma S2_bid_of_40_is_accepted :
  validateBid Scenario.lib Scenario.S2 1338 "0xassetB" (10 # 100)%Q Scenario.bid40
  = Resolved (inr Scenario.bid40)
  /\ getTransferQuote Scenario.lib Scenario.S2 (Scenario.params None None)
     = Resolved Scenario.bid40.
Proof. split; vm_compute; reflexivity. Qed.

Lemma slippage_gate_accepts_bid_of_40_witness :
  integerPortion
    (calculateExchangeAmount (40 - 1) (1 - slippageTolerance Scenario.auction / 100)) = 38
  /\ validateBid Scenario.lib Scenario.S2 1338 "0xassetB" (10 # 100)%Q Scenario.bid40
     = Resolved (inr Scenario.bid40)
  /\ settleAuction Scenario.lib Scenario.S2 Scenario.auction [Scenario.bid40]
     = Resolved Scenario.bid40.
Proof.
  apply (slippage_gate_accepts_bid_of_40 Scenario.lib Scenario.S2 Scenario.auction
           Scenario.bid40 1000); try reflexivity.
  lia.
Defined.

(** C3, in a dry run: the quote resolves with a bid whose signature does not
    recover to its router. *)
Lemma S3_dryRun_answers_forged_bid :
  getTransferQuote Scenario.lib Scenario.S3 (Scenario.params None (Some true))
  = Resolved Scenario.forged
  /\ recoverAuctionBid Scenario.lib (bid Scenario.forged)
       (default "" (bidSignature Scenario.forged)) = inr "0xFOO"
  /\ AuctionBid.router (bid Scenario.forged) = "0xrouterA".
Proof. repeat split; vm_compute; reflexivity. Qed.

Lemma getTransferQuote_signed_unless_dryRun_witness :
  getTransferQuote Scenario.lib Scenario.S2 (Scenario.params None None)
  = Resolved Scenario.bid40
  /\ recoverAuctionBid Scenario.lib (bid Scenario.bid40)
       (default "" (bidSignature Scenario.bid40))
     = inr (AuctionBid.router (bid Scenario.bid40)).
Proof.
  assert (getTransferQuote Scenario.lib Scenario.S2 (Scenario.params None None)
          = Resolved Scenario.bid40) as H by (vm_compute; reflexivity).
  split; [exact H |].
  exact (getTransferQuote_signed_unless_dryRun Scenario.lib Scenario.S2
           (Scenario.params None None) Scenario.bid40 eq_refl H).
Defined.

Lemma slippage_lower_bound_le_amountReceived_witness :
  integerPortion
    (calculateExchangeAmount
       (AuctionBid.amountReceived (bid Scenario.bid40)
        - gasFeeInReceivingToken Scenario.bid40)
       (1 - (10 # 100) / 100))
  <= AuctionBid.amountReceived (bid Scenario.bid40)
  /\ validateBid Scenario.lib Scenario.S2 1338 "0xassetB" (10 # 100)%Q Scenario.bid40
     <> Resolved
          (inl "Invalid bid price: price impact is more than the slippage tolerance").
Proof.
  apply (slippage_lower_bound_le_amountReceived Scenario.lib Scenario.S2 1338 "0xassetB"
           (10 # 100)%Q Scenario.bid40); vm_compute; discriminate.
Defined.

(** C5. A check that throws takes the whole auction down. On S6 the bid
    of 100 passes every check and the bid of 101 carries no signature: the
    call of line 497 throws on it, outside the [try] of lines 505-530, the
    promise of its callback rejects, [Promise.all] rejects, and the quote
    rejects with [UnknownAuctionError] around that error, where the bid of
    100 would have been answered had the other bid been turned down on its
    own. The failures that the callback returns as a string are kept to
    their bid: beside a bid whose signature recovers to another address the
    bid of 100 is answered, and liquidity reads that reject end the auction
    with [NoValidBids] and one reason for each bid. *)
Theorem unreadable_signature_aborts_auction :
  auctionBidsPromise Scenario.lib Scenario.S6 Scenario.auction
  = Resolved [Scenario.bid100; Scenario.unsigned]
  /\ validateBid Scenario.lib Scenario.S6 1338 "0xassetB" (10 # 100)%Q Scenario.bid100
     = Resolved (inr Scenario.bid100)
  /\ recoverAuctionBid Scenario.lib (bid Scenario.unsigned)
       (default "" (bidSignature Scenario.unsigned)) = inl "invalid signature"
  /\ validateBid Scenario.lib Scenario.S6 1338 "0xassetB" (10 # 100)%Q Scenario.unsigned
     = Rejected (Thrown "invalid signature")
  /\ getTransferQuote Scenario.lib Scenario.S6 (Scenario.params None None)
     = Rejected (UnknownAuctionError "0xtx" (Thrown "invalid signature"))
  /\ getTransferQuote Scenario.lib
       (Scenario.sdk (inr 1000) (inr "0x") [Scenario.post 1000 Scenario.bid100] [])
       (Scenario.params None None)
     = Resolved Scenario.bid100
  /\ getTransferQuote Scenario.lib
       (Scenario.sdk (inr 1000) (inr "0x")
          [Scenario.post 1000 Scenario.bid100; Scenario.post 2000 Scenario.forged] [])
       (Scenario.params None None)
     = Resolved Scenario.bid100
  /\ getTransferQuote Scenario.lib
       (Scenario.sdk (inl "rpc down") (inr "0x")
          [Scenario.post 1000 Scenario.bid100; Scenario.post 2000 Scenario.bid101] [])
       (Scenario.params None None)
     = Rejected
         (UnknownAuctionError "0xtx"
            (NoValidBids "0xtx"
               "Error getting router liquidity,Error getting router liquidity")).
Proof. repeat split; vm_compute; reflexivity. Qed.

(** C6, end to end: the quote resolves with a bid whose [callDataHash] is
    not the hash of the call data of the request, [prepareTransfer] resolves
    on it, and the [txData] carries the hash of the bid. *)
Lemma S4_txData_carries_hash_of_bid :
  getTransferQuote Scenario.lib Scenario.S4 (Scenario.params None None)
  = Resolved Scenario.rehashed
  /\ is_resolved (prepareTransfer Scenario.lib Scenario.S4 Scenario.rehashed) = true
  /\ (exists p,
        prepareParams Scenario.lib Scenario.S4 Scenario.rehashed = Resolved p
        /\ InvariantTransactionData.callDataHash (PrepareParams.txData p) = "0xdeadbeef")
  /\ keccak256 Scenario.lib
       (default "0x" (CrossChainParams.callData (Scenario.params None None)))
     = "keccak256:0x".
Proof.
  split; [vm_compute; reflexivity |]. split; [vm_compute; reflexivity |].
  split; [| vm_compute; reflexivity].
  eexists. split; vm_compute; reflexivity.
Qed.

Lemma prepareTransfer_txData_witness :
  exists p,
    prepareParams Scenario.lib Scenario.S2 Scenario.bid40 = Resolved p
    /\ InvariantTransactionData.sendingChainFallback (PrepareParams.txData p) = "0xuser"
    /\ InvariantTransactionData.user (PrepareParams.txData p) = "0xuser"
    /\ InvariantTransactionData.callDataHash (PrepareParams.txData p) = "keccak256:0x".
Proof.
  destruct (prepareTransfer_txData Scenario.lib Scenario.S2 Scenario.bid40
              {| to := "0xtxmanager"; data := "bid:0xtx"; requestChainId := 1337 |}
              eq_refl)
    as (p & Hp & _ & Hf & Hu & Hh & _).
  exists p. rewrite Hf, Hu, Hh. repeat split; [exact Hp | ..]; reflexivity.
Defined.

Lemma getTransferQuote_InvalidExpiry_iff_witness :
  raises_InvalidExpiry
    (getTransferQuote Scenario.lib Scenario.S1
       (Scenario.params (Some (Scenario.now + 24 * 3600)) None))
  /\ ~ raises_InvalidExpiry
         (getTransferQuote Scenario.lib Scenario.S1
            (Scenario.params (Some (Scenario.now + 176400)) None))
  /\ ~ raises_InvalidExpiry
         (getTransferQuote Scenario.lib Scenario.S1
            (Scenario.params (Some (Scenario.now + 345600)) None)).
Proof.
  assert (forall e, reachesExpiryCheck Scenario.lib Scenario.S1 (Scenario.params e None))
    as Hreach.
  { intros e. repeat split; try reflexivity; vm_compute; discriminate. }
  pose proof (fun e =>
                proj1 (getTransferQuote_InvalidExpiry_iff Scenario.lib Scenario.S1
                         (Scenario.params (Some e) None) e eq_refl (Hreach (Some e))))
    as Hiff.
  split; [| split].
  - apply Hiff. vm_compute. left. reflexivity.
  - intros H. apply Hiff in H. vm_compute in H. destruct H as [H | H]; discriminate H.
  - intros H. apply Hiff in H. vm_compute in H. destruct H as [H | H]; discriminate H.
Defined.


(** S5: no code at [callTo] = "0xABCD". *)
Lemma prepareTransfer_InvalidCallTo_witness :
  prepareTransfer Scenario.lib (Scenario.sdk (inr 1000) (inr "0x") [] []) Scenario.toABCD
  = Rejected (InvalidCallTo "0xtx" "0xABCD")
  /\ prepareTransfer Scenario.lib
       (replaceProviders {| getCode := fun _ => inl "provider down" |}
          (Scenario.sdk (inr 1000) (inr "0x") [] []))
       Scenario.bid40
     = prepareTransfer Scenario.lib (Scenario.sdk (inr 1000) (inr "0x") [] []) Scenario.bid40.
Proof.
  split.
  - apply (proj1 (prepareTransfer_InvalidCallTo Scenario.lib
                    (Scenario.sdk (inr 1000) (inr "0x") [] []) Scenario.toABCD)
             (Scenario.chain (inr "0x")) "0x").
    + repeat split; reflexivity.
    + discriminate.
    + reflexivity.
    + reflexivity.
    + right. reflexivity.
  - apply (proj2 (prepareTransfer_InvalidCallTo Scenario.lib
                    (Scenario.sdk (inr 1000) (inr "0x") [] []) Scenario.bid40)
             eq_refl).
Defined.

Lemma fulfillTransfer_MetaTxTimeout_witness :
  fulfillTransfer Scenario.lib
    (Scenario.sdk (inr 1000) (inr "0x") [] [(300000, Scenario.fulfilled)])
    Scenario.prepared "0xsignature" "0x" None None
  = Rejected (MetaTxTimeout "0xtx" 300000)
  /\ exists t' ev',
       (t', ev') ∈ [(299999, Scenario.fulfilled)] /\ t' < META_TX_TIMEOUT
       /\ TransactionData.transactionId (ReceiverTransactionFulfilled.txData ev') = "0xtx"
       /\ fulfillTransfer Scenario.lib
            (Scenario.sdk (inr 1000) (inr "0x") [] [(299999, Scenario.fulfilled)])
            Scenario.prepared "0xsignature" "0x" None None
          = Resolved {|
              fulfillRequest := None;
              metaTxResponse := Some {|
                transactionHash := ReceiverTransactionFulfilled.transactionHash ev';
                chainId :=
                  TransactionData.receivingChainId
                    (ReceiverTransactionFulfilled.txData ev');
              |};
            |}.
Proof.
  assert (forall events,
            reachesMetaTxWait Scenario.lib (Scenario.sdk (inr 1000) (inr "0x") [] events)
              Scenario.prepared) as Hreach.
  { intros events. repeat split; try reflexivity. left. reflexivity. }
  split.
  - apply (fulfillTransfer_MetaTxTimeout Scenario.lib _ Scenario.prepared
             "0xsignature" "0x" None None eq_refl (Hreach _)).
    intros t ev Hin Ht. apply list_elem_of_singleton in Hin. injection Hin as -> ->.
    vm_compute in Ht. discriminate Ht.
  - apply (fulfillTransfer_MetaTxTimeout Scenario.lib _ Scenario.prepared
             "0xsignature" "0x" None None eq_refl (Hreach _))
      with (t := 299999) (ev := Scenario.fulfilled).
    + apply list_elem_of_here.
    + reflexivity.
    + reflexivity.
Defined.

(** ** More on the quote *)

Lemma Qltb_false_inv x y : Qltb x y = false -> (y <= x)%Q.
Proof.
  unfold Qltb. intros H. apply Qle_bool_iff.
  now destruct (Qle_bool y x).
Qed.

(** What the checks of a resolved [openAuction] have established. *)
Lemma openAuction_Resolved_checks lib this params a :
  openAuction lib this params = Resolved a ->
  reachesExpiryCheck lib this params
  /\ getMinExpiryBuffer
     <= default (getExpiry (getTimestampInSeconds lib)) (CrossChainParams.expiry params)
        - getTimestampInSeconds lib
     <= getMaxExpiryBuffer
  /\ AuctionPayload.expiry (payload a)
     = default (getExpiry (getTimestampInSeconds lib)) (CrossChainParams.expiry params)
  /\ AuctionPayload.transactionId (payload a)
     = default (getRandomBytes32 lib) (CrossChainParams.transactionId params)
  /\ inbox a = generateMessagingInbox lib
  /\ preferredRouters a
     = List.map (getAddress lib) (default [] (CrossChainParams.preferredRouters params)).
Proof.
  unfold openAuction. intros H.
  pass H Hs. pass H Hc1. pass H Hc2. pass H Hy. pass H Hlo. pass H Hhi.
  pass H Hmin. pass H Hmax.
  apply bind_Resolved in H as (enc & _ & H).
  apply bind_Resolved in H as (tok & _ & H).
  injection H as <-. cbn.
  apply negb_false_iff in Hs. apply orb_false_iff in Hy as [Hy1 Hy2].
  apply negb_false_iff in Hy1, Hy2.
  apply Qltb_false_inv in Hlo, Hhi.
  repeat split; try assumption; try reflexivity; lia.
Qed.

Lemma find_some_first {A} (f : A -> bool) (l : list A) x :
  List.find f l = Some x ->
  exists pre post, l = pre ++ x :: post /\ f x = true /\ forall y, y ∈ pre -> f y = false.
Proof.
  induction l as [| y l IH]; cbn; [discriminate |].
  destruct (f y) eqn:Hy.
  - intros [= ->]. exists [], l. repeat split; [exact Hy |].
    intros z Hz. now apply elem_of_nil in Hz.
  - intros H. destruct (IH H) as (pre & post & -> & Hx & Hpre).
    exists (y :: pre), post. repeat split; [exact Hx |].
    intros z Hz. apply elem_of_cons in Hz as [-> | Hz]; auto.
Qed.

Lemma dataOf_elem d (m : AuctionMessage.t) :
  d ∈ dataOf m <-> AuctionMessage.data m = Some d.
Proof.
  unfold dataOf. destruct (AuctionMessage.data m).
  - rewrite list_elem_of_singleton. split; congruence.
  - rewrite elem_of_nil. split; [tauto | discriminate].
Qed.

Lemma isBid_true inbox (m : AuctionMessage.t) :
  isBid inbox m = true <->
  AuctionMessage.inbox m = inbox
  /\ isSome (AuctionMessage.data m) = true
  /\ truthy (AuctionMessage.err m) = false.
Proof.
  unfold isBid. rewrite !andb_true_iff, negb_true_iff, String.eqb_eq. tauto.
Qed.

(** Where the bids of an auction come from: each was posted to the inbox of
    the auction, with data and without error, before the deadline of its
    policy; under the policy of the preferred routers it comes from one. *)
Lemma auctionBidsPromise_elem lib this a rs d :
  auctionBidsPromise lib this a = Resolved rs ->
  d ∈ rs ->
  exists t m,
    (t, m) ∈ posted (messaging this)
    /\ isBid (inbox a) m = true
    /\ AuctionMessage.data m = Some d
    /\ t < AUCTION_TIMEOUT * 2
    /\ (AuctionPayload.dryRun (payload a) = true \/ preferredRouters a = [] ->
        t < AUCTION_TIMEOUT)
    /\ (AuctionPayload.dryRun (payload a) = false -> preferredRouters a <> [] ->
        fromPreferred lib (preferredRouters a) m = true).
Proof.
  unfold auctionBidsPromise. intros H Hd.
  destruct (AuctionPayload.dryRun (payload a)) eqn:Hdry.
  - apply bind_Resolved in H as (m & Hm & [= <-]).
    unfold evt_waitFor in Hm.
    destruct (List.find _ _) as [[t m'] |] eqn:Hfind; [| discriminate].
    injection Hm as ->. apply find_some_elem in Hfind as [Hin Hok].
    apply andb_true_iff in Hok as [Ht Hbid]. apply Z.ltb_lt in Ht.
    apply dataOf_elem in Hd.
    exists t, m. repeat split; intros; try assumption; try discriminate.
    unfold AUCTION_TIMEOUT in *. lia.
  - destruct (preferredRouters a) as [| p ps] eqn:Hpref; cbn [length Z.of_nat Z.ltb Z.compare] in H.
    + injection H as <-.
      apply list_elem_of_In, in_concat in Hd as (l & Hl & Hd).
      apply in_map_iff in Hl as (m & <- & Hm).
      unfold evt_attached in Hm. apply in_map_iff in Hm as ([t m'] & Heq & Hm).
      cbn in Heq. subst m'. apply filter_In in Hm as [Hin Hok].
      apply andb_true_iff in Hok as [Ht Hbid]. apply Z.ltb_lt in Ht.
      apply list_elem_of_In, dataOf_elem in Hd.
      exists t, m. repeat split; intros; try assumption; try congruence.
      * now apply list_elem_of_In.
      * unfold AUCTION_TIMEOUT in *. lia.
    + apply bind_Resolved in H as (m & Hm & [= <-]).
      unfold evt_waitFor in Hm.
      destruct (List.find _ _) as [[t m'] |] eqn:Hfind; [| discriminate].
      injection Hm as ->. apply find_some_elem in Hfind as [Hin Hok].
      apply andb_true_iff in Hok as [Ht Hbid]. apply Z.ltb_lt in Ht.
      apply andb_true_iff in Hbid as [Hbid Hp].
      apply dataOf_elem in Hd.
      exists t, m. do 4 (split; [assumption |]).
      split; [intros [[=] | [=]] | intros _ _; assumption].
Qed.

Lemma settleAuction_Resolved_elem lib this a rs r :
  settleAuction lib this a rs = Resolved r -> r ∈ rs.
Proof.
  intros H. destruct (AuctionPayload.dryRun (payload a)) eqn:Hdry.
  - unfold settleAuction in H. destruct rs; [discriminate |]. rewrite Hdry in H.
    injection H as <-. apply list_elem_of_here.
  - apply (settleAuction_Resolved _ _ _ _ _ Hdry) in H as (f & Hf & H & _).
    now apply (valid_signed _ _ _ _ _ _ Hf) in H as [? _].
Qed.

(** X1. A quote resolves only for a call that passed the schema, between
    two chains that are configured and whose subgraphs are synced, with an
    expiry between [now] + 176400 and [now] + 345600, and after the auction
    request was published; the payload carries that expiry and the
    transaction id of the call (or a fresh one). *)
Theorem getTransferQuote_resolves_only_after_checks lib this params r :
  getTransferQuote lib this params = Resolved r ->
  CrossChainParamsSchema lib params = true
  /\ notConfigured this (CrossChainParams.sendingChainId params) = false
  /\ notConfigured this (CrossChainParams.receivingChainId params) = false
  /\ synced (getSubgraphSyncStatus this (CrossChainParams.sendingChainId params)) = true
  /\ synced (getSubgraphSyncStatus this (CrossChainParams.receivingChainId params)) = true
  /\ getTimestampInSeconds lib + 176400
     <= default (getExpiry (getTimestampInSeconds lib)) (CrossChainParams.expiry params)
     <= getTimestampInSeconds lib + 345600
  /\ exists a,
       openAuction lib this params = Resolved a
       /\ publishAuctionRequest (messaging this) (payload a) (inbox a) = inr tt
       /\ AuctionPayload.expiry (payload a)
          = default (getExpiry (getTimestampInSeconds lib)) (CrossChainParams.expiry params)
       /\ AuctionPayload.transactionId (payload a)
          = default (getRandomBytes32 lib) (CrossChainParams.transactionId params).
Proof.
  unfold getTransferQuote. intros H.
  apply bind_Resolved in H as (a & Ha & H).
  apply bind_Resolved in H as ([] & Hpub & _).
  pose proof (openAuction_Resolved_checks _ _ _ _ Ha) as (Hreach & Hwin & He & Ht & _).
  destruct Hreach as (Hs & Hc1 & Hc2 & Hy1 & Hy2 & _).
  do 5 (split; [assumption |]). split.
  { unfold getMinExpiryBuffer, getMaxExpiryBuffer, daysToSeconds, hoursToSeconds in Hwin.
    lia. }
  exists a. repeat split; try assumption.
  destruct (publishAuctionRequest _ _ _) as [| []]; [discriminate | reflexivity].
Qed.

Lemma validateBid_inr_liquidity lib this c asset slippage data d :
  validateBid lib this c asset slippage data = Resolved (inr d) ->
  exists routerLiq,
    getRouterLiquidity (transactionManager this) c (AuctionBid.router (bid data)) asset
    = inr routerLiq
    /\ AuctionBid.amountReceived (bid data) <= routerLiq.
Proof.
  unfold validateBid. intros H.
  destruct (recoverAuctionBid _ _ _) as [m | signer]; cbn in H; [discriminate |].
  destruct (negb (signer =? _)%string); cbn in H; [discriminate |].
  destruct (getRouterLiquidity _ _ _ _) as [| routerLiq]; cbn in H; [discriminate |].
  destruct (_ <? _) eqn:Hlt; [discriminate |].
  apply Z.ltb_ge in Hlt. eauto.
Qed.

(** X2. Outside a dry run, the liquidity of the router of the bid that a
    quote answers was read on the receiving chain, for the receiving asset,
    and covers [amountReceived]. *)
Theorem getTransferQuote_liquidity_covers_bid lib this params r :
  default false (CrossChainParams.dryRun params) = false ->
  getTransferQuote lib this params = Resolved r ->
  exists routerLiq,
    getRouterLiquidity (transactionManager this)
      (CrossChainParams.receivingChainId params) (AuctionBid.router (bid r))
      (CrossChainParams.receivingAssetId params) = inr routerLiq
    /\ AuctionBid.amountReceived (bid r) <= routerLiq.
Proof.
  intros Hdry H.
  apply getTransferQuote_Resolved in H as (a & rs & Ha & _ & Hr).
  apply openAuction_Resolved in Ha as (Hd & _ & _ & Hc & Hasset).
  rewrite Hdry in Hd.
  apply (settleAuction_Resolved _ _ _ _ _ Hd) in Hr as (f & Hf & Hin & _).
  rewrite (valid_filter _ _ _ _ _ Hf) in Hin.
  apply list_elem_of_In, filter_In in Hin as [_ Hp].
  unfold passes in Hp. rewrite Hc, Hasset in Hp.
  destruct (validateBid _ _ _ _ _ r) as [[| d] |] eqn:Hv; try discriminate.
  now apply validateBid_inr_liquidity in Hv.
Qed.

(** X3. The response that a quote answers was posted on the bus to the
    inbox of this auction, without error, before 12 s had passed, and before
    6 s in a dry run or when no router is preferred. *)
Theorem getTransferQuote_answers_posted_bid lib this params r :
  getTransferQuote lib this params = Resolved r ->
  exists t m,
    (t, m) ∈ posted (messaging this)
    /\ AuctionMessage.inbox m = generateMessagingInbox lib
    /\ AuctionMessage.data m = Some r
    /\ truthy (AuctionMessage.err m) = false
    /\ t < AUCTION_TIMEOUT * 2
    /\ (default false (CrossChainParams.dryRun params) = true
        \/ default [] (CrossChainParams.preferredRouters params) = [] ->
        t < AUCTION_TIMEOUT).
Proof.
  intros H.
  apply getTransferQuote_Resolved in H as (a & rs & Ha & Hrs & Hr).
  apply settleAuction_Resolved_elem in Hr.
  destruct (auctionBidsPromise_elem _ _ _ _ _ Hrs Hr)
    as (t & m & Hin & Hbid & Hdata & Ht2 & Ht & _).
  apply isBid_true in Hbid as (Hinbox & _ & Herr).
  pose proof (openAuction_Resolved _ _ _ _ Ha) as (Hd & _).
  pose proof (openAuction_Resolved_checks _ _ _ _ Ha) as (_ & _ & _ & _ & Hi & Hp).
  exists t, m. rewrite <- Hi. repeat split; try assumption.
  intros Hpol. apply Ht. rewrite Hd, Hp.
  destruct Hpol as [Hpol | Hpol]; [now left | right; now rewrite Hpol].
Qed.

Lemma existsb_eqb_elem (x : string) (l : list string) :
  List.existsb (String.eqb x) l = true <-> x ∈ l.
Proof.
  rewrite existsb_exists. split.
  - intros (y & Hy & Heq). apply String.eqb_eq in Heq as ->. now apply list_elem_of_In.
  - intros H. exists x. split; [now apply list_elem_of_In | apply String.eqb_refl].
Qed.

(** X4. With preferred routers and outside a dry run, the router of the bid
    that a quote answers is, once normalised by [getAddress], one of the
    normalised preferred routers. *)
Theorem getTransferQuote_answers_preferred_router lib this params r :
  default false (CrossChainParams.dryRun params) = false ->
  default [] (CrossChainParams.preferredRouters params) <> [] ->
  getTransferQuote lib this params = Resolved r ->
  getAddress lib (AuctionBid.router (bid r))
  ∈ List.map (getAddress lib) (default [] (CrossChainParams.preferredRouters params)).
Proof.
  intros Hdry Hpref H.
  apply getTransferQuote_Resolved in H as (a & rs & Ha & Hrs & Hr).
  apply settleAuction_Resolved_elem in Hr.
  destruct (auctionBidsPromise_elem _ _ _ _ _ Hrs Hr)
    as (t & m & _ & _ & Hdata & _ & _ & Hfrom).
  pose proof (openAuction_Resolved _ _ _ _ Ha) as (Hd & _).
  pose proof (openAuction_Resolved_checks _ _ _ _ Ha) as (_ & _ & _ & _ & _ & Hp).
  rewrite Hdry in Hd. specialize (Hfrom Hd).
  rewrite Hp in Hfrom.
  assert (List.map (getAddress lib) (default [] (CrossChainParams.preferredRouters params))
          <> []) as Hne.
  { destruct (default [] (CrossChainParams.preferredRouters params));
      [congruence | discriminate]. }
  specialize (Hfrom Hne). unfold fromPreferred in Hfrom. rewrite Hdata in Hfrom.
  now apply existsb_eqb_elem.
Qed.

(** X5. A dry run answers the first message, in the order of arrival, that
    reaches the inbox of the auction with data and without error before 6 s
    have passed. *)
Theorem getTransferQuote_dryRun_answers_first_bid lib this params r :
  CrossChainParams.dryRun params = Some true ->
  getTransferQuote lib this params = Resolved r ->
  exists pre t m post,
    posted (messaging this) = pre ++ (t, m) :: post
    /\ AuctionMessage.data m = Some r
    /\ t < AUCTION_TIMEOUT
    /\ isBid (generateMessagingInbox lib) m = true
    /\ forall t' m', (t', m') ∈ pre -> t' < AUCTION_TIMEOUT ->
         isBid (generateMessagingInbox lib) m' = false.
Proof.
  intros Hdry H.
  apply getTransferQuote_Resolved in H as (a & rs & Ha & Hrs & Hr).
  pose proof (openAuction_Resolved _ _ _ _ Ha) as (Hd & _).
  pose proof (openAuction_Resolved_checks _ _ _ _ Ha) as (_ & _ & _ & _ & Hi & _).
  rewrite Hdry in Hd. cbn in Hd.
  unfold auctionBidsPromise in Hrs. rewrite Hd, Hi in Hrs.
  apply bind_Resolved in Hrs as (m & Hm & [= <-]).
  unfold evt_waitFor in Hm.
  destruct (List.find _ _) as [[t m'] |] eqn:Hfind; [| discriminate].
  injection Hm as ->.
  apply find_some_first in Hfind as (pre & post & Hposted & Hok & Hpre).
  apply andb_true_iff in Hok as [Ht Hbid]. apply Z.ltb_lt in Ht.
  unfold settleAuction in Hr. rewrite Hd in Hr.
  destruct (dataOf m) as [| d ds] eqn:Hdata; [discriminate |].
  injection Hr as ->.
  assert (AuctionMessage.data m = Some r) as Hsome.
  { apply dataOf_elem. rewrite Hdata. apply list_elem_of_here. }
  exists pre, t, m, post. repeat split; try assumption.
  intros t' m' Hin Ht'. specialize (Hpre _ Hin). cbn in Hpre.
  apply Z.ltb_lt in Ht'. now rewrite Ht' in Hpre.
Qed.


Lemma openAuction_Rejected lib this params e :
  openAuction lib this params = Rejected e ->
  quoteRejection lib this params e /\ forall t c, e <> UnknownAuctionError t c.
Proof.
  unfold openAuction. intros H.
  gate_hit H Hc He. { subst e. cbn. split; [auto | discriminate]. }
  gate_hit H Hc1 He. { subst e. cbn. split; [auto | discriminate]. }
  gate_hit H Hc2 He. { subst e. cbn. split; [auto | discriminate]. }
  gate_hit H Hy He. { subst e. cbn. split; [auto | discriminate]. }
  gate_hit H Hlo He. { subst e. cbn. split; [auto | discriminate]. }
  gate_hit H Hhi He. { subst e. cbn. split; [auto | discriminate]. }
  gate_hit H Hmin He. { subst e. cbn. split; [auto | discriminate]. }
  gate_hit H Hmax He. { subst e. cbn. split; [auto | discriminate]. }
  apply bind_Rejected in H as [H | (? & ? & H)].
  - destruct (_ =? _)%string; [discriminate |].
    apply try_catch_Rejected in H as (? & _ & [= <-]). cbn. split; [auto | discriminate].
  - apply bind_Rejected in H as [H | (? & ? & H)]; [| discriminate].
    destruct (isConnected _); [discriminate |].
    apply connectMessaging_Rejected in H as [m ->]. cbn. split; [auto | discriminate].
Qed.

(** X6. A rejection of [getTransferQuote] is the error of one of its
    checks, an error of a collaborator, or [UnknownAuctionError] with the
    transaction id of the call. The latter arises only once the request is
    published, around what the collection or the settling of the bids
    rejected with; from then on it is the only rejection. [NoBids] and
    [NoValidBids] never leave [getTransferQuote] bare. *)
Theorem getTransferQuote_rejections lib this params e :
  getTransferQuote lib this params = Rejected e ->
  quoteRejection lib this params e
  /\ forall a,
       openAuction lib this params = Resolved a ->
       publishAuctionRequest (messaging this) (payload a) (inbox a) = inr tt ->
       exists cause,
         e = UnknownAuctionError
               (default (getRandomBytes32 lib) (CrossChainParams.transactionId params)) cause.
Proof.
  unfold getTransferQuote. intros H.
  apply bind_Rejected in H as [H | (a & Ha & H)].
  { split; [now apply openAuction_Rejected in H as [? _] |].
    intros a Ha. congruence. }
  apply bind_Rejected in H as [H | (u & Hpub & H)].
  { split; [apply await_Rejected in H as [m ->]; exact I |].
    intros a' Ha' Hpub. rewrite Ha in Ha'. injection Ha' as <-.
    rewrite Hpub in H. discriminate. }
  apply try_catch_Rejected in H as (cause & Hcause & [= <-]).
  pose proof (openAuction_Resolved_checks _ _ _ _ Ha) as (_ & _ & _ & Ht & _).
  assert (publishAuctionRequest (messaging this) (payload a) (inbox a) = inr tt) as Hp.
  { destruct (publishAuctionRequest _ _ _) as [| []]; [discriminate | reflexivity]. }
  split; [| intros ? _ _; rewrite <- Ht; eauto].
  cbn. split; [exact Ht |].
  exists a. split; [exact Ha |]. split; [exact Hp |].
  apply bind_Rejected in Hcause as [Hcause | (rs & Hrs & Hcause)]; eauto.
Qed.

(** X7. When the request is published and no bid reaches the inbox in
    time, an open auction without preferred routers ends in [NoBids] and a
    dry run in the timeout of the bus, both inside [UnknownAuctionError]. *)
Theorem getTransferQuote_without_bids lib this params a :
  openAuction lib this params = Resolved a ->
  publishAuctionRequest (messaging this) (payload a) (inbox a) = inr tt ->
  (forall t m, (t, m) ∈ posted (messaging this) -> t < AUCTION_TIMEOUT ->
     isBid (inbox a) m = false) ->
  (AuctionPayload.dryRun (payload a) = false -> preferredRouters a = [] ->
   getTransferQuote lib this params
   = Rejected (UnknownAuctionError (AuctionPayload.transactionId (payload a))
                 (NoBids AUCTION_TIMEOUT)))
  /\ (AuctionPayload.dryRun (payload a) = true ->
      getTransferQuote lib this params
      = Rejected (UnknownAuctionError (AuctionPayload.transactionId (payload a))
                    (EvtTimeout AUCTION_TIMEOUT))).
Proof.
  intros Ha Hpub Hnone. split.
  - intros Hdry Hpref.
    unfold getTransferQuote. rewrite Ha. cbn [mbind Outcome_bind]. rewrite Hpub.
    cbn [await mbind Outcome_bind].
    unfold auctionBidsPromise. rewrite Hdry, Hpref. cbn [length Z.of_nat Z.ltb Z.compare].
    replace (evt_attached _ _ _) with (@nil AuctionMessage.t); [reflexivity |].
    unfold evt_attached. symmetry.
    replace (List.filter _ _) with (@nil (Z * AuctionMessage.t)); [reflexivity |].
    symmetry. induction (posted (messaging this)) as [| [t m] l IH]; [reflexivity |].
    cbn. destruct (t <? AUCTION_TIMEOUT) eqn:Ht; cbn.
    + apply Z.ltb_lt in Ht. rewrite (Hnone t m (list_elem_of_here _ _) Ht).
      apply IH. intros t' m' Hin. apply Hnone. now apply list_elem_of_further.
    + apply IH. intros t' m' Hin. apply Hnone. now apply list_elem_of_further.
  - intros Hdry.
    unfold getTransferQuote. rewrite Ha. cbn [mbind Outcome_bind]. rewrite Hpub.
    cbn [await mbind Outcome_bind].
    unfold auctionBidsPromise. rewrite Hdry.
    rewrite evt_waitFor_timeout; [reflexivity | exact Hnone].
Qed.

(** ** More on the validation of the bids *)




(** X21. A signature that cannot be read ends an open auction: when
    [recoverAuctionBid] throws on a collected bid, and on none that arrived
    before it, the body of the [try] throws that error whatever the other
    bids are, and [getTransferQuote] rejects with [UnknownAuctionError]
    around it. *)
Theorem settleAuction_aborts_on_unreadable_signature lib this a
    (before : list AuctionResponse) (d : AuctionResponse) (after : list AuctionResponse) m :
  AuctionPayload.dryRun (payload a) = false ->
  (forall d', d' ∈ before ->
     exists signer,
       recoverAuctionBid lib (bid d') (default "" (bidSignature d')) = inr signer) ->
  recoverAuctionBid lib (bid d) (default "" (bidSignature d)) = inl m ->
  settleAuction lib this a (before ++ d :: after) = Rejected (Thrown m)
  /\ forall params,
       openAuction lib this params = Resolved a ->
       publishAuctionRequest (messaging this) (payload a) (inbox a) = inr tt ->
       auctionBidsPromise lib this a = Resolved (before ++ d :: after) ->
       getTransferQuote lib this params
       = Rejected (UnknownAuctionError (AuctionPayload.transactionId (payload a)) (Thrown m)).
Proof.
  intros Hdry Hok Hm.
  assert (filtered lib this a (before ++ d :: after) = Rejected (Thrown m)) as Hf.
  { unfold filtered. rewrite List.map_app. cbn [List.map].
    induction before as [| b before IH]; cbn [app List.map Promise_all].
    - replace (validateBid _ _ _ _ _ d) with (@Rejected (string + AuctionResponse) (Thrown m));
        [reflexivity |].
      symmetry. apply validateBid_Rejected. eauto.
    - destruct (validateBid lib this _ _ _ b) as [x | e] eqn:Hb.
      + cbn [mbind Outcome_bind]. rewrite IH; [reflexivity |].
        intros d' Hd'. apply Hok. now apply list_elem_of_further.
      + apply validateBid_Rejected in Hb as (m' & _ & Hb).
        destruct (Hok b (list_elem_of_here _ _)) as [signer Hs]. congruence. }
  assert (settleAuction lib this a (before ++ d :: after) = Rejected (Thrown m)) as Hs.
  { unfold settleAuction. rewrite Hdry, Hf.
    destruct (before ++ d :: after) eqn:Hl; [now destruct before | reflexivity]. }
  split; [exact Hs |].
  intros params Ha Hpub Hrs.
  unfold getTransferQuote. rewrite Ha. cbn [mbind Outcome_bind]. rewrite Hpub.
  cbn [await mbind Outcome_bind]. rewrite Hrs. cbn [mbind Outcome_bind]. rewrite Hs.
  reflexivity.
Qed.

(** ** More on prepareTransfer *)

(** X10. [prepareTransfer] rejects with [SubgraphsNotSynced] exactly when
    one of the two chains of the bid is not synced, whatever else is wrong
    with the call; a chain without a sync record counts as not synced. *)
Theorem prepareTransfer_SubgraphsNotSynced_iff lib this transferParams :
  (prepareTransfer lib this transferParams = Rejected SubgraphsNotSynced
   <-> synced (getSubgraphSyncStatus this
                 (AuctionBid.sendingChainId (bid transferParams))) = false
       \/ synced (getSubgraphSyncStatus this
                    (AuctionBid.receivingChainId (bid transferParams))) = false)
  /\ (getSyncStatus (subgraph this) (AuctionBid.sendingChainId (bid transferParams)) = None
      \/ getSyncStatus (subgraph this) (AuctionBid.receivingChainId (bid transferParams))
         = None ->
      prepareTransfer lib this transferParams = Rejected SubgraphsNotSynced).
Proof.
  assert (synced (getSubgraphSyncStatus this
                    (AuctionBid.sendingChainId (bid transferParams))) = false
          \/ synced (getSubgraphSyncStatus this
                       (AuctionBid.receivingChainId (bid transferParams))) = false ->
          prepareTransfer lib this transferParams = Rejected SubgraphsNotSynced) as Hback.
  { intros Hun. unfold prepareTransfer, prepareParams.
    replace (negb _ || negb _) with true; [reflexivity |].
    symmetry. apply orb_true_iff. destruct Hun as [-> | ->]; auto. }
  split; [split; [| exact Hback] |].
  - unfold prepareTransfer. intros H.
    apply bind_Rejected in H as [H | (p & _ & H)];
      [| apply await_Rejected in H as [? [=]]].
    unfold prepareParams in H.
    gate_hit H Hy He.
    { apply orb_true_iff in Hy as [Hy | Hy]; apply negb_true_iff in Hy; auto. }
    do 4 gate H.
    apply bind_Rejected in H as [H | (? & ? & [=])].
    destruct (negb (AuctionBid.callTo _ =? _)%string); [| discriminate].
    destruct (chainConfig _ !! _); [| discriminate].
    apply bind_Rejected in H as [H | (? & ? & H)].
    + apply await_Rejected in H as [? [=]].
    + apply throw_if_Rejected in H as [_ [=]].
  - intros Hnone. apply Hback. unfold getSubgraphSyncStatus.
    destruct Hnone as [-> | ->]; auto.
Qed.

(** X11. A [prepareTransfer] that resolves passed every check, found code
    at [callTo] unless it is the zero address, and handed the transaction
    manager, for the sending chain, the amount, expiry, encrypted call data,
    encoding and signature of the bid. *)
Theorem prepareTransfer_resolves_only_after_checks lib this transferParams tx :
  prepareTransfer lib this transferParams = Resolved tx ->
  reachesCallToCheck lib this transferParams
  /\ (AuctionBid.callTo (bid transferParams) = AddressZero
      \/ exists c code,
           chainConfig (config this) !! AuctionBid.receivingChainId (bid transferParams)
           = Some c
           /\ getCode (ChainConfig.provider c) (AuctionBid.callTo (bid transferParams))
              = inr code
           /\ code <> "" /\ code <> "0x")
  /\ exists p,
       prepare (transactionManager this)
         (AuctionBid.sendingChainId (bid transferParams)) p = inr tx
       /\ PrepareParams.amount p = AuctionBid.amount (bid transferParams)
       /\ PrepareParams.expiry p = AuctionBid.expiry (bid transferParams)
       /\ PrepareParams.encryptedCallData p
          = AuctionBid.encryptedCallData (bid transferParams)
       /\ PrepareParams.encodedBid p = encodeAuctionBid lib (bid transferParams)
       /\ bidSignature transferParams = Some (PrepareParams.bidSignature p)
       /\ InvariantTransactionData.router (PrepareParams.txData p)
          = AuctionBid.router (bid transferParams)
       /\ InvariantTransactionData.transactionId (PrepareParams.txData p)
          = AuctionBid.transactionId (bid transferParams)
       /\ InvariantTransactionData.receivingChainTxManagerAddress (PrepareParams.txData p)
          = getTransactionManagerAddress (transactionManager this)
              (AuctionBid.receivingChainId (bid transferParams)).
Proof.
  unfold prepareTransfer. intros H.
  apply bind_Resolved in H as (p & Hp & H).
  unfold prepareParams in Hp.
  pass Hp Hy. pass Hp Hs. pass Hp Hc1. pass Hp Hc2. pass Hp Hsig.
  apply bind_Resolved in Hp as ([] & Hto & Hp).
  injection Hp as <-. cbn.
  apply orb_false_iff in Hy as [Hy1 Hy2]. apply negb_false_iff in Hy1, Hy2, Hs, Hsig.
  split; [repeat split; assumption |]. split.
  - destruct (String.eqb _ _) eqn:Hz in Hto; cbn in Hto.
    + left. now apply String.eqb_eq.
    + right. destruct (chainConfig _ !! _) as [c |] eqn:Hc; [| discriminate].
      apply bind_Resolved in Hto as (code & Hcode & Hto).
      apply throw_if_Resolved, orb_false_iff in Hto as [Hne H0x].
      exists c, code. split; [reflexivity |].
      split; [destruct (getCode _ _); [discriminate | now injection Hcode as ->] |].
      split.
      * intros ->. discriminate.
      * now apply String.eqb_neq.
  - eexists. split.
    { destruct (prepare _ _ _) as [| tx'] eqn:Hprep; [discriminate |].
      injection H as ->. exact Hprep. }
    cbn. repeat split.
    destruct (bidSignature transferParams); [reflexivity | discriminate].
Qed.

(** X22. [prepareTransfer] rejects with [InvalidCallTo] only for a call
    that passed the checks before, with a [callTo] other than the zero
    address, when the provider of the receiving chain answered "" or "0x"
    as the code at [callTo]; the error carries the transaction id and the
    [callTo] of the bid. *)
Theorem prepareTransfer_InvalidCallTo_only_without_code lib this transferParams t callTo :
  prepareTransfer lib this transferParams = Rejected (InvalidCallTo t callTo) ->
  reachesCallToCheck lib this transferParams
  /\ t = AuctionBid.transactionId (bid transferParams)
  /\ callTo = AuctionBid.callTo (bid transferParams)
  /\ callTo <> AddressZero
  /\ exists c code,
       chainConfig (config this) !! AuctionBid.receivingChainId (bid transferParams) = Some c
       /\ getCode (ChainConfig.provider c) callTo = inr code
       /\ (code = "" \/ code = "0x").
Proof.
  unfold prepareTransfer. intros H.
  apply bind_Rejected in H as [H | (p & _ & H)];
    [| apply await_Rejected in H as [? [=]]].
  unfold prepareParams in H.
  gate_hit H Hy He; [discriminate He |].
  gate_hit H Hs He; [discriminate He |].
  gate_hit H Hc1 He; [discriminate He |].
  gate_hit H Hc2 He; [discriminate He |].
  gate_hit H Hsig He; [discriminate He |].
  apply bind_Rejected in H as [H | (? & _ & [=])].
  apply orb_false_iff in Hy as [Hy1 Hy2].
  apply negb_false_iff in Hy1, Hy2, Hs, Hsig.
  destruct (String.eqb_spec (AuctionBid.callTo (bid transferParams)) AddressZero)
    as [Hz | Hnz]; cbn [negb] in H; [discriminate |].
  destruct (chainConfig (config this) !! _) as [c |] eqn:Hc; [| discriminate].
  apply bind_Rejected in H as [H | (code & Hcode & H)];
    [apply await_Rejected in H as [? [=]] |].
  apply throw_if_Rejected in H as [Hempty [= -> ->]].
  split; [repeat split; assumption |].
  do 2 (split; [reflexivity |]). split; [exact Hnz |].
  exists c, code. split; [reflexivity |]. split.
  - destruct (getCode _ _) as [| code']; [discriminate | now injection Hcode as ->].
  - apply orb_true_iff in Hempty as [Hempty | Hempty].
    + left. cbn in Hempty. apply negb_true_iff, negb_false_iff, String.eqb_eq in Hempty.
      exact Hempty.
    + right. now apply String.eqb_eq.
Qed.

(** ** More on fulfillTransfer *)


Lemma evt_waitFor_Resolved {A} (stream : list (Z * A)) filter timeout a :
  evt_waitFor stream filter timeout = Resolved a ->
  exists pre t post,
    stream = pre ++ (t, a) :: post /\ t < timeout /\ filter a = true
    /\ forall t' a', (t', a') ∈ pre -> t' < timeout -> filter a' = false.
Proof.
  unfold evt_waitFor. intros H.
  destruct (List.find _ _) as [[t a'] |] eqn:Hfind; [| discriminate].
  injection H as ->.
  apply find_some_first in Hfind as (pre & post & -> & Hok & Hpre).
  apply andb_true_iff in Hok as [Ht Hf]. apply Z.ltb_lt in Ht.
  exists pre, t, post. repeat split; try assumption.
  intros t' a' Hin Ht'. specialize (Hpre _ Hin). cbn in Hpre.
  apply Z.ltb_lt in Ht'. now rewrite Ht' in Hpre.
Qed.

Lemma evt_waitFor_Rejected {A} (stream : list (Z * A)) filter timeout e :
  evt_waitFor stream filter timeout = Rejected e ->
  e = EvtTimeout timeout
  /\ forall t a, (t, a) ∈ stream -> t < timeout -> filter a = false.
Proof.
  unfold evt_waitFor. intros H.
  destruct (List.find _ _) as [[t a'] |] eqn:Hfind; [discriminate |].
  injection H as <-. split; [reflexivity |].
  intros t a Hin Ht. rewrite find_none_iff in Hfind. specialize (Hfind _ Hin).
  cbn in Hfind. apply Z.ltb_lt in Ht. now rewrite Ht in Hfind.
Qed.

(** X12. What a resolved [fulfillTransfer] answers: with relayers, no
    [fulfillRequest] and the [metaTxResponse] of the first event for this
    transaction that arrived before the deadline; without, no
    [metaTxResponse] and the request of the transaction manager. *)
Theorem fulfillTransfer_result lib this params fulfillSignature decryptedCallData
    relayerFee useRelayers res :
  fulfillTransfer lib this params fulfillSignature decryptedCallData relayerFee useRelayers
  = Resolved res ->
  TransactionPrepareEventSchema lib params = true
  /\ notConfigured this
       (TransactionData.sendingChainId (TransactionPreparedEvent.txData params)) = false
  /\ notConfigured this
       (TransactionData.receivingChainId (TransactionPreparedEvent.txData params)) = false
  /\ if default true useRelayers then
       fulfillRequest res = None
       /\ exists pre t ev post,
            fulfilledEvents (subgraph this) = pre ++ (t, ev) :: post
            /\ t < META_TX_TIMEOUT
            /\ fulfils params ev
            /\ (forall t' ev', (t', ev') ∈ pre -> t' < META_TX_TIMEOUT ->
                  ~ fulfils params ev')
            /\ metaTxResponse res
               = Some {| transactionHash := ReceiverTransactionFulfilled.transactionHash ev;
                         chainId :=
                           TransactionData.receivingChainId
                             (ReceiverTransactionFulfilled.txData ev) |}
     else
       metaTxResponse res = None
       /\ exists request,
            fulfillRequest res = Some request
            /\ fulfill (transactionManager this)
                 (TransactionData.receivingChainId (TransactionPreparedEvent.txData params))
                 {| FulfillParams.relayerFee := default "0" relayerFee;
                    FulfillParams.signature := fulfillSignature;
                    FulfillParams.txData := TransactionPreparedEvent.txData params;
                    FulfillParams.callData := decryptedCallData |}
               = inr request.
Proof.
  unfold fulfillTransfer. intros H.
  pass H Hs. pass H Hc1. pass H Hc2. apply negb_false_iff in Hs.
  do 3 (split; [assumption |]).
  destruct (default true useRelayers).
  - apply bind_Resolved in H as (tok & _ & H).
    apply bind_Resolved in H as (u & _ & H).
    apply try_catch_Resolved in H as [H | (? & _ & [=])].
    apply bind_Resolved in H as (ev & Hev & [= <-]). cbn.
    split; [reflexivity |].
    apply evt_waitFor_Resolved in Hev as (pre & t & post & Hst & Ht & Hf & Hpre).
    exists pre, t, ev, post. repeat split; try assumption.
    + now apply String.eqb_eq.
    + intros t' ev' Hin Ht'. apply String.eqb_neq. eauto.
  - apply bind_Resolved in H as (req & Hreq & [= <-]). cbn.
    split; [reflexivity |]. exists req. split; [reflexivity |].
    destruct (fulfill _ _ _); [discriminate | now injection Hreq as ->].
Qed.

(** X13. [fulfillTransfer] rejects with [MetaTxTimeout] only on the relayed
    path, for the transaction of the call and [META_TX_TIMEOUT], and only
    when no event for this transaction arrived before the deadline. *)
Theorem fulfillTransfer_MetaTxTimeout_only_without_event lib this params fulfillSignature
    decryptedCallData relayerFee useRelayers transactionId timeout :
  fulfillTransfer lib this params fulfillSignature decryptedCallData relayerFee useRelayers
  = Rejected (MetaTxTimeout transactionId timeout) ->
  default true useRelayers = true
  /\ transactionId = TransactionData.transactionId (TransactionPreparedEvent.txData params)
  /\ timeout = META_TX_TIMEOUT
  /\ forall t ev, (t, ev) ∈ fulfilledEvents (subgraph this) -> t < META_TX_TIMEOUT ->
       ~ fulfils params ev.
Proof.
  unfold fulfillTransfer. intros H.
  do 3 gate H.
  destruct (default true useRelayers).
  - apply bind_Rejected in H as [H | (tok & _ & H)].
    { destruct (isConnected _); [discriminate |].
      apply connectMessaging_Rejected in H as [? [=]]. }
    apply bind_Rejected in H as [H | (u & _ & H)].
    { apply await_Rejected in H as [? [=]]. }
    apply try_catch_Rejected in H as (e0 & He0 & He).
    apply bind_Rejected in He0 as [He0 | (? & _ & [=])].
    apply evt_waitFor_Rejected in He0 as [-> Hnone].
    injection He as <- <-. repeat split.
    intros t ev Hin Ht. apply String.eqb_neq. eauto.
  - apply bind_Rejected in H as [H | (? & _ & [=])].
    apply await_Rejected in H as [? [=]].
Qed.



(** X14. Messaging that is connected is not connected again: the outcomes
    of [getTransferQuote] and [fulfillTransfer] do not depend on what
    [connect] and [subscribeToAuctionResponse] would answer. *)
Theorem connected_messaging_is_not_reconnected lib this this' :
  sameButConnect this this' ->
  (forall params, getTransferQuote lib this' params = getTransferQuote lib this params)
  /\ (forall params fulfillSignature decryptedCallData relayerFee useRelayers,
        fulfillTransfer lib this' params fulfillSignature decryptedCallData relayerFee
          useRelayers
        = fulfillTransfer lib this params fulfillSignature decryptedCallData relayerFee
            useRelayers).
Proof.
  intros (Hc & Ht & Hsg & Hi & Hi' & Hpa & Hpm & Hp). split.
  - intros params.
    unfold getTransferQuote, openAuction, auctionBidsPromise, settleAuction, valid, invalid,
      filtered, validateBid, notConfigured, getSubgraphSyncStatus.
    now rewrite Hc, Ht, Hsg, Hi, Hi', Hpa, Hp.
  - intros. unfold fulfillTransfer, notConfigured.
    now rewrite Hc, Ht, Hsg, Hi, Hi', Hpm.
Qed.

(** ** Encryption of the call data *)

(** X9. The call data of a quote: [EncryptionError] comes only with call
    data other than "0x", when the request for the public key or the
    encryption fails; the payload of an auction carries "0x" for no call
    data and the encryption under the key of the user otherwise. *)
Theorem getTransferQuote_encrypts_call_data lib this params :
  (getTransferQuote lib this params = Rejected EncryptionError ->
   exists callData,
     CrossChainParams.callData params = Some callData /\ callData <> "0x"
     /\ ((exists msg,
            ethereumRequest lib "eth_getEncryptionPublicKey" [signerAddress (config this)]
            = inl msg)
         \/ exists key msg,
              ethereumRequest lib "eth_getEncryptionPublicKey" [signerAddress (config this)]
              = inr key
              /\ encrypt lib callData key = inl msg))
  /\ forall a,
       openAuction lib this params = Resolved a ->
       match CrossChainParams.callData params with
       | None => AuctionPayload.encryptedCallData (payload a) = "0x"
       | Some callData =>
           if (callData =? "0x")%string
           then AuctionPayload.encryptedCallData (payload a) = "0x"
           else exists key,
                  ethereumRequest lib "eth_getEncryptionPublicKey"
                    [signerAddress (config this)] = inr key
                  /\ encrypt lib callData key
                     = inr (AuctionPayload.encryptedCallData (payload a))
       end.
Proof.
  split.
  - intros H.
    assert (openAuction lib this params = Rejected EncryptionError) as Ho.
    { unfold getTransferQuote in H.
      apply bind_Rejected in H as [H | (a & _ & H)]; [exact H |].
      apply bind_Rejected in H as [H | (? & _ & H)].
      - apply await_Rejected in H as [? [=]].
      - apply try_catch_Rejected in H as (? & _ & [=]). }
    unfold openAuction in Ho. do 8 gate Ho.
    apply bind_Rejected in Ho as [Ho | (? & ? & Ho)].
    + destruct (CrossChainParams.callData params) as [callData |];
        cbn [from_option id] in Ho; [| cbn in Ho; discriminate].
      destruct (callData =? "0x")%string eqn:Hcd; [cbn in Ho; discriminate |].
      apply String.eqb_neq in Hcd.
      exists callData. do 2 (split; [auto |]).
      destruct (ethereumRequest lib _ _) as [msg | key]; [left; eauto | right].
      cbn in Ho. destruct (encrypt lib callData key) as [msg |] eqn:Henc; [| discriminate].
      eauto.
    + apply bind_Rejected in Ho as [Ho | (? & ? & [=])].
      destruct (isConnected _); [discriminate |].
      apply connectMessaging_Rejected in Ho as [? [=]].
  - intros a H. unfold openAuction in H.
    do 8 (let Hc := fresh "Hc" in pass H Hc).
    apply bind_Resolved in H as (enc & Henc & H).
    apply bind_Resolved in H as (tok & _ & H).
    injection H as <-. cbn.
    destruct (CrossChainParams.callData params) as [callData |];
      cbn [from_option id] in Henc.
    + destruct (callData =? "0x")%string; [now injection Henc as <- |].
      destruct (ethereumRequest lib _ _) as [| key]; [discriminate |].
      cbn in Henc. exists key. split; [reflexivity |].
      destruct (encrypt lib callData key); [discriminate | now injection Henc as ->].
    + now injection Henc as <-.
Qed.

(** ** The constructor *)

Lemma truthy_Some_default (o : option string) :
  truthy o = true -> o = Some (default "" o) /\ default "" o <> "".
Proof.
  destruct o as [v |]; cbn; [| discriminate].
  intros H. split; [reflexivity |]. intros ->. discriminate.
Qed.

(** What [configureChain] writes for a chain it accepts. *)
Lemma configureChain_inr d chainId c t s :
  configureChain d chainId c = inr (t, s) ->
  TxManagerChainConfig.provider t = ChainConfig.provider c
  /\ SubgraphChainConfig.provider s = ChainConfig.provider c
  /\ SubgraphChainConfig.subgraphSyncBuffer s = ChainConfig.subgraphSyncBuffer c
  /\ TxManagerChainConfig.transactionManagerAddress t <> ""
  /\ TxManagerChainConfig.priceOracleAddress t <> ""
  /\ SubgraphChainConfig.subgraph s <> ""
  /\ Some (TxManagerChainConfig.transactionManagerAddress t)
     = (if truthy (ChainConfig.transactionManagerAddress c)
        then ChainConfig.transactionManagerAddress c
        else getDeployedTransactionManagerContract d chainId)
  /\ Some (SubgraphChainConfig.subgraph s)
     = (if truthy (ChainConfig.subgraph c) then ChainConfig.subgraph c
        else getDeployedSubgraphUri d chainId)
  /\ (truthy (ChainConfig.priceOracleAddress c) = true ->
      Some (TxManagerChainConfig.priceOracleAddress t) = ChainConfig.priceOracleAddress c)
  /\ (truthy (ChainConfig.priceOracleAddress c) = false ->
      TxManagerChainConfig.priceOracleAddress t
      = if includesChain (getDeployedChainIdsForGasFee d) chainId
        then default "" (getDeployedPriceOracleContract d chainId)
        else AddressZero).
Proof.
  unfold configureChain. intros H.
  repeat match type of H with
         | context [truthy ?x] =>
             destruct (truthy x) eqn:?; cbn [negb andb] in H; try discriminate H
         | context [includesChain ?l ?x] =>
             destruct (includesChain l x) eqn:?; cbn [negb andb] in H
         end;
    try discriminate H; injection H as <- <-; cbn; cbn [negb] in *;
    repeat match goal with
           | Ht : truthy _ = true |- _ => apply truthy_Some_default in Ht as [? ?]
           end;
    repeat split; intros; try assumption; try congruence; try discriminate.
Qed.

(** X17. Why a chain is rejected: [NoTransactionManager] when no address is
    configured or deployed; else [NoPriceOracle] when none is configured,
    the chain is one with a gas fee and none is deployed; else [NoSubgraph]
    when no subgraph is configured or deployed. *)
Theorem configureChain_throws_iff d chainId c e :
  configureChain d chainId c = inl e <->
  (e = NoTransactionManager chainId
   /\ truthy (ChainConfig.transactionManagerAddress c) = false
   /\ truthy (getDeployedTransactionManagerContract d chainId) = false)
  \/ (e = NoPriceOracle chainId
      /\ truthy (ChainConfig.transactionManagerAddress c)
         || truthy (getDeployedTransactionManagerContract d chainId) = true
      /\ truthy (ChainConfig.priceOracleAddress c) = false
      /\ includesChain (getDeployedChainIdsForGasFee d) chainId = true
      /\ truthy (getDeployedPriceOracleContract d chainId) = false)
  \/ (e = NoSubgraph chainId
      /\ truthy (ChainConfig.transactionManagerAddress c)
         || truthy (getDeployedTransactionManagerContract d chainId) = true
      /\ (truthy (ChainConfig.priceOracleAddress c)
          || negb (includesChain (getDeployedChainIdsForGasFee d) chainId)
          || truthy (getDeployedPriceOracleContract d chainId)) = true
      /\ truthy (ChainConfig.subgraph c) = false
      /\ truthy (getDeployedSubgraphUri d chainId) = false).
Proof.
  unfold configureChain.
  destruct (truthy (ChainConfig.transactionManagerAddress c));
    destruct (truthy (getDeployedTransactionManagerContract d chainId));
    destruct (truthy (ChainConfig.priceOracleAddress c)) eqn:Hpo;
    destruct (includesChain (getDeployedChainIdsForGasFee d) chainId);
    destruct (truthy (getDeployedPriceOracleContract d chainId)) eqn:Hdpo;
    destruct (truthy (ChainConfig.subgraph c)) eqn:Hsg;
    cbn [negb andb orb]; rewrite ?Hsg, ?Hpo, ?Hdpo; cbn [negb andb orb];
    try (destruct (truthy (getDeployedSubgraphUri d chainId)); cbn [negb andb orb]);
    (split;
     [ intros H; try discriminate H; injection H as <-; tauto
     | intros [(-> & ? & ?) | [(-> & ? & ? & ? & ?) | (-> & ? & ? & ? & ?)]];
       try discriminate; reflexivity ]).
Qed.

Lemma configureChains_inr d entries tm0 sg0 tm sg :
  configureChains d entries tm0 sg0 = inr (tm, sg) ->
  (forall k, k ∉ entries.*1 -> tm !! k = tm0 !! k /\ sg !! k = sg0 !! k)
  /\ (forall k, k ∈ entries.*1 -> is_Some (tm !! k) /\ is_Some (sg !! k))
  /\ (NoDup entries.*1 ->
      forall k c, (k, c) ∈ entries ->
        exists t s, configureChain d k c = inr (t, s)
                    /\ tm !! k = Some t /\ sg !! k = Some s).
Proof.
  revert tm0 sg0. induction entries as [| [k0 c0] rest IH]; intros tm0 sg0 H.
  - injection H as <- <-. split; [| split].
    + intros k _. split; reflexivity.
    + intros k Hk. now apply elem_of_nil in Hk.
    + intros _ k c Hk. now apply elem_of_nil in Hk.
  - cbn in H. destruct (configureChain d k0 c0) as [| [t0 s0]] eqn:Hc0; [discriminate |].
    destruct (IH _ _ H) as (Hout & Hin & Hnd).
    split; [| split].
    + intros k Hk. cbn in Hk. apply not_elem_of_cons in Hk as [Hne Hk].
      destruct (Hout k Hk) as [-> ->].
      rewrite !lookup_insert_ne by congruence. auto.
    + intros k Hk. cbn in Hk.
      destruct (decide (k ∈ rest.*1)) as [Hr | Hr]; [now apply Hin |].
      apply elem_of_cons in Hk as [-> | Hk]; [| contradiction].
      destruct (Hout k0 Hr) as [-> ->]. rewrite !lookup_insert_eq. eauto.
    + intros Hno k c Hk. cbn in Hno. apply NoDup_cons in Hno as [Hk0 Hno].
      apply elem_of_cons in Hk as [[= -> ->] | Hk].
      * destruct (Hout k0 Hk0) as [-> ->]. rewrite !lookup_insert_eq. eauto.
      * now apply Hnd.
Qed.

(** X15. When the constructor accepts the chains, [txManagerConfig] and
    [subgraphConfig] have an entry for exactly the configured chain ids; the
    entry of a chain keeps its provider, has a transaction manager address,
    a price oracle address and a subgraph that are not empty, and keeps
    every address that was configured; the price oracle is the zero address
    when none is configured and the chain is not one with a gas fee. *)
Theorem constructorConfigs_complete d entries txManagerConfig subgraphConfig :
  constructorConfigs d entries = inr (txManagerConfig, subgraphConfig) ->
  (forall chainId,
     (is_Some (txManagerConfig !! chainId) <-> chainId ∈ entries.*1)
     /\ (is_Some (subgraphConfig !! chainId) <-> chainId ∈ entries.*1))
  /\ (NoDup entries.*1 ->
      forall chainId c, (chainId, c) ∈ entries ->
        exists t s,
          txManagerConfig !! chainId = Some t /\ subgraphConfig !! chainId = Some s
          /\ TxManagerChainConfig.provider t = ChainConfig.provider c
          /\ SubgraphChainConfig.provider s = ChainConfig.provider c
          /\ TxManagerChainConfig.transactionManagerAddress t <> ""
          /\ TxManagerChainConfig.priceOracleAddress t <> ""
          /\ SubgraphChainConfig.subgraph s <> ""
          /\ (truthy (ChainConfig.transactionManagerAddress c) = true ->
              ChainConfig.transactionManagerAddress c
              = Some (TxManagerChainConfig.transactionManagerAddress t))
          /\ (truthy (ChainConfig.priceOracleAddress c) = true ->
              ChainConfig.priceOracleAddress c
              = Some (TxManagerChainConfig.priceOracleAddress t))
          /\ (truthy (ChainConfig.subgraph c) = true ->
              ChainConfig.subgraph c = Some (SubgraphChainConfig.subgraph s))
          /\ (truthy (ChainConfig.priceOracleAddress c) = false ->
              includesChain (getDeployedChainIdsForGasFee d) chainId = false ->
              TxManagerChainConfig.priceOracleAddress t = AddressZero)).
Proof.
  unfold constructorConfigs. intros H.
  apply configureChains_inr in H as (Hout & Hin & Hnd). split.
  - intros k. split; (split; [| intros Hk; now apply Hin]).
    + intros Hs. destruct (decide (k ∈ entries.*1)) as [| Hk]; [assumption |].
      destruct (Hout k Hk) as [Ht _]. rewrite Ht, lookup_empty in Hs.
      now destruct Hs.
    + intros Hs. destruct (decide (k ∈ entries.*1)) as [| Hk]; [assumption |].
      destruct (Hout k Hk) as [_ Ht]. rewrite Ht, lookup_empty in Hs.
      now destruct Hs.
  - intros Hno k c Hk. destruct (Hnd Hno k c Hk) as (t & s & Hc & Ht & Hs).
    apply configureChain_inr in Hc
      as (Hp1 & Hp2 & _ & Hn1 & Hn2 & Hn3 & Htm & Hsg & Hpo & Hpo').
    exists t, s. do 7 (split; [assumption |]).
    split; [intros Hy; now rewrite Hy in Htm |].
    split; [intros Hy; symmetry; now apply Hpo |].
    split; [intros Hy; now rewrite Hy in Hsg |].
    intros Hy Hg. rewrite Hg in Hpo'. now apply Hpo'.
Qed.

(** X16. The constructor throws exactly when some chain is rejected, and
    it throws the error of the first such chain in the order of the
    entries. *)
Theorem constructorConfigs_throws_for_first_incomplete_chain d entries e :
  constructorConfigs d entries = inl e <->
  exists pre chainId c post,
    entries = pre ++ (chainId, c) :: post
    /\ (forall chainId' c', (chainId', c') ∈ pre ->
          exists ts, configureChain d chainId' c' = inr ts)
    /\ configureChain d chainId c = inl e.
Proof.
  unfold constructorConfigs. generalize (∅ : gmap Z TxManagerChainConfig.t).
  generalize (∅ : gmap Z SubgraphChainConfig.t).
  induction entries as [| [k0 c0] rest IH]; intros sg0 tm0; cbn.
  - split; [discriminate |]. intros (pre & k & c & post & Heq & _).
    now destruct pre.
  - destruct (configureChain d k0 c0) as [e0 | [t0 s0]] eqn:Hc0.
    + split.
      * intros [= ->]. exists [], k0, c0, rest. repeat split; [| exact Hc0].
        intros k' c' Hin. now apply elem_of_nil in Hin.
      * intros (pre & k & c & post & Heq & Hpre & Hc).
        destruct pre as [| [k1 c1] pre]; cbn in Heq.
        -- injection Heq as <- <- <-. congruence.
        -- injection Heq as <- <- ->.
           destruct (Hpre k0 c0 (list_elem_of_here _ _)) as [ts Hts]. congruence.
    + rewrite IH. split.
      * intros (pre & k & c & post & -> & Hpre & Hc).
        exists ((k0, c0) :: pre), k, c, post. repeat split; [| exact Hc].
        intros k' c' Hin. apply elem_of_cons in Hin as [[= -> ->] | Hin]; eauto.
      * intros (pre & k & c & post & Heq & Hpre & Hc).
        destruct pre as [| [k1 c1] pre]; cbn in Heq.
        -- injection Heq as <- <- <-. congruence.
        -- injection Heq as <- <- ->.
           exists pre, k, c, post. repeat split; [| exact Hc].
           intros k' c' Hin. apply Hpre. now apply list_elem_of_further.
Qed.

(** ** The fee estimate *)

(** X18. [estimateFulfillFee] never resolves with zero; what it resolves
    with is the estimate of the transaction manager for empty call data, so
    the [callDataHash] of the transfer does not matter. *)
Theorem estimateFulfillFee_is_never_zero keccak256 calculateGasInTokenForFullfil txData
    signatureForFee relayerFee :
  (forall gasNeeded,
     estimateFulfillFee keccak256 calculateGasInTokenForFullfil txData signatureForFee
       relayerFee = Resolved gasNeeded ->
     gasNeeded <> 0
     /\ calculateGasInTokenForFullfil (TransactionData.receivingChainId txData)
          {| FulfillParams.relayerFee := relayerFee;
             FulfillParams.signature := signatureForFee;
             FulfillParams.txData := withCallDataHash (keccak256 "0x") txData;
             FulfillParams.callData := "0x" |}
        = inr gasNeeded)
  /\ (forall callDataHash,
        estimateFulfillFee keccak256 calculateGasInTokenForFullfil
          (withCallDataHash callDataHash txData) signatureForFee relayerFee
        = estimateFulfillFee keccak256 calculateGasInTokenForFullfil txData signatureForFee
            relayerFee).
Proof.
  split.
  - unfold estimateFulfillFee. intros g H.
    apply bind_Resolved in H as (g' & Hg & H).
    pass H Hz. injection H as <-.
    apply Z.eqb_neq in Hz. split; [exact Hz |].
    destruct (calculateGasInTokenForFullfil _ _); [discriminate | now injection Hg as ->].
  - intros h. reflexivity.
Qed.

(** ** The further properties, run *)

Lemma getTransferQuote_resolves_only_after_checks_witness :
  CrossChainParamsSchema Scenario.lib (Scenario.params None None) = true.
Proof.
  assert (getTransferQuote Scenario.lib Scenario.S2 (Scenario.params None None)
          = Resolved Scenario.bid40) as H by (vm_compute; reflexivity).
  exact (proj1 (getTransferQuote_resolves_only_after_checks _ _ _ _ H)).
Defined.

Lemma getTransferQuote_liquidity_covers_bid_witness :
  exists routerLiq,
    getRouterLiquidity (transactionManager Scenario.S2) 1338 "0xrouterA" "0xassetB"
    = inr routerLiq
    /\ 40 <= routerLiq.
Proof.
  assert (getTransferQuote Scenario.lib Scenario.S2 (Scenario.params None None)
          = Resolved Scenario.bid40) as H by (vm_compute; reflexivity).
  exact (getTransferQuote_liquidity_covers_bid Scenario.lib Scenario.S2
           (Scenario.params None None) Scenario.bid40 eq_refl H).
Defined.

Lemma getTransferQuote_answers_posted_bid_witness :
  exists t m,
    (t, m) ∈ posted (messaging Scenario.S1)
    /\ AuctionMessage.inbox m = "inbox-1"
    /\ AuctionMessage.data m = Some Scenario.bid100
    /\ truthy (AuctionMessage.err m) = false
    /\ t < AUCTION_TIMEOUT * 2
    /\ (false = true \/ @nil string = [] -> t < AUCTION_TIMEOUT).
Proof.
  assert (getTransferQuote Scenario.lib Scenario.S1 (Scenario.params None None)
          = Resolved Scenario.bid100) as H by (vm_compute; reflexivity).
  exact (getTransferQuote_answers_posted_bid Scenario.lib Scenario.S1
           (Scenario.params None None) Scenario.bid100 H).
Defined.

Lemma getTransferQuote_answers_preferred_router_witness :
  getTransferQuote Scenario.lib Scenario.S1 (Runs.preferring ["0xrouterB"])
  = Resolved Scenario.bid101
  /\ "0xrouterB" ∈ ["0xrouterB"].
Proof.
  assert (getTransferQuote Scenario.lib Scenario.S1 (Runs.preferring ["0xrouterB"])
          = Resolved Scenario.bid101) as H by (vm_compute; reflexivity).
  split; [exact H |].
  refine (getTransferQuote_answers_preferred_router Scenario.lib Scenario.S1
            (Runs.preferring ["0xrouterB"]) Scenario.bid101 eq_refl _ H).
  discriminate.
Defined.

Lemma getTransferQuote_dryRun_answers_first_bid_witness :
  exists pre t m post,
    posted (messaging Scenario.S3) = pre ++ (t, m) :: post
    /\ AuctionMessage.data m = Some Scenario.forged
    /\ t < AUCTION_TIMEOUT
    /\ isBid "inbox-1" m = true
    /\ forall t' m', (t', m') ∈ pre -> t' < AUCTION_TIMEOUT -> isBid "inbox-1" m' = false.
Proof.
  assert (getTransferQuote Scenario.lib Scenario.S3 (Scenario.params None (Some true))
          = Resolved Scenario.forged) as H by (vm_compute; reflexivity).
  exact (getTransferQuote_dryRun_answers_first_bid Scenario.lib Scenario.S3
           (Scenario.params None (Some true)) Scenario.forged eq_refl H).
Defined.

Lemma getTransferQuote_rejections_witness :
  getTransferQuote Scenario.lib Runs.silent (Scenario.params None None)
  = Rejected (UnknownAuctionError "0xtx" (NoBids 6000))
  /\ quoteRejection Scenario.lib Runs.silent (Scenario.params None None)
       (UnknownAuctionError "0xtx" (NoBids 6000)).
Proof.
  assert (getTransferQuote Scenario.lib Runs.silent (Scenario.params None None)
          = Rejected (UnknownAuctionError "0xtx" (NoBids 6000))) as H
    by (vm_compute; reflexivity).
  split; [exact H |].
  exact (proj1 (getTransferQuote_rejections Scenario.lib Runs.silent
                  (Scenario.params None None) _ H)).
Defined.

Lemma getTransferQuote_without_bids_witness :
  getTransferQuote Scenario.lib Runs.silent (Scenario.params None None)
  = Rejected (UnknownAuctionError "0xtx" (NoBids AUCTION_TIMEOUT)).
Proof.
  refine (proj1 (getTransferQuote_without_bids Scenario.lib Runs.silent
                   (Scenario.params None None) Scenario.auction _ eq_refl _)
            eq_refl eq_refl).
  - vm_compute. reflexivity.
  - intros t m Hin. now apply elem_of_nil in Hin.
Defined.

Lemma getTransferQuote_chooses_minimum_witness :
  exists a auctionResponses verdicts,
    openAuction Scenario.lib Scenario.S1 (Scenario.params None None) = Resolved a
    /\ auctionBidsPromise Scenario.lib Scenario.S1 a = Resolved auctionResponses
    /\ filtered Scenario.lib Scenario.S1 a auctionResponses = Resolved verdicts
    /\ Scenario.bid100 ∈ valid verdicts
    /\ forall d, d ∈ valid verdicts ->
         AuctionBid.amountReceived (bid Scenario.bid100)
         <= AuctionBid.amountReceived (bid d).
Proof.
  assert (getTransferQuote Scenario.lib Scenario.S1 (Scenario.params None None)
          = Resolved Scenario.bid100) as H by (vm_compute; reflexivity).
  exact (getTransferQuote_chooses_minimum Scenario.lib Scenario.S1
           (Scenario.params None None) Scenario.bid100 eq_refl H).
Defined.

Lemma prepareTransfer_resolves_only_after_checks_witness :
  reachesCallToCheck Scenario.lib Scenario.S2 Scenario.bid40.
Proof.
  exact (proj1 (prepareTransfer_resolves_only_after_checks Scenario.lib Scenario.S2
                  Scenario.bid40
                  {| to := "0xtxmanager"; data := "bid:0xtx"; requestChainId := 1337 |}
                  eq_refl)).
Defined.

Lemma fulfillTransfer_result_witness :
  TransactionPrepareEventSchema Scenario.lib Scenario.prepared = true.
Proof.
  assert (fulfillTransfer Scenario.lib (Runs.relayed 299999) Scenario.prepared
            "0xsignature" "0x" None None
          = Resolved {| fulfillRequest := None;
                        metaTxResponse :=
                          Some {| transactionHash := "0xhash"; chainId := 1338 |} |}) as H
    by (vm_compute; reflexivity).
  exact (proj1 (fulfillTransfer_result _ _ _ _ _ _ _ _ H)).
Defined.

Lemma fulfillTransfer_MetaTxTimeout_only_without_event_witness :
  fulfillTransfer Scenario.lib (Runs.relayed 300000) Scenario.prepared
    "0xsignature" "0x" None None
  = Rejected (MetaTxTimeout "0xtx" 300000)
  /\ forall t ev,
       (t, ev) ∈ fulfilledEvents (subgraph (Runs.relayed 300000)) ->
       t < META_TX_TIMEOUT -> ~ fulfils Scenario.prepared ev.
Proof.
  assert (fulfillTransfer Scenario.lib (Runs.relayed 300000) Scenario.prepared
            "0xsignature" "0x" None None
          = Rejected (MetaTxTimeout "0xtx" 300000)) as H by (vm_compute; reflexivity).
  split; [exact H |].
  exact (proj2 (proj2 (proj2
           (fulfillTransfer_MetaTxTimeout_only_without_event _ _ _ _ _ _ _ _ _ H)))).
Defined.

Lemma connected_messaging_is_not_reconnected_witness :
  getTransferQuote Scenario.lib Runs.unreachable (Scenario.params None None)
  = getTransferQuote Scenario.lib Scenario.S1 (Scenario.params None None).
Proof.
  refine (proj1 (connected_messaging_is_not_reconnected Scenario.lib Scenario.S1
                   Runs.unreachable _) (Scenario.params None None)).
  repeat split; reflexivity.
Defined.

Lemma constructorConfigs_complete_witness :
  is_Some (Runs.txManagerConfig !! 1337) <-> 1337 ∈ Runs.entries.*1.
Proof.
  assert (constructorConfigs Deployment.registry Runs.entries
          = inr (Runs.txManagerConfig, Runs.subgraphConfig)) as H
    by (vm_compute; reflexivity).
  exact (proj1 (proj1 (constructorConfigs_complete _ _ _ _ H) 1337)).
Defined.


Lemma settleAuction_aborts_on_unreadable_signature_witness :
  settleAuction Scenario.lib Scenario.S6 Scenario.auction
    ([Scenario.bid100] ++ Scenario.unsigned :: [])
  = Rejected (Thrown "invalid signature").
Proof.
  refine (proj1 (settleAuction_aborts_on_unreadable_signature Scenario.lib Scenario.S6
                   Scenario.auction [Scenario.bid100] Scenario.unsigned []
                   "invalid signature" eq_refl _ eq_refl)).
  intros d' Hd'. apply list_elem_of_singleton in Hd' as ->. eexists. reflexivity.
Defined.

Lemma prepareTransfer_InvalidCallTo_only_without_code_witness :
  reachesCallToCheck Scenario.lib (Scenario.sdk (inr 1000) (inr "0x") [] []) Scenario.toABCD
  /\ "0xtx" = AuctionBid.transactionId (bid Scenario.toABCD)
  /\ "0xABCD" = AuctionBid.callTo (bid Scenario.toABCD).
Proof.
  assert (prepareTransfer Scenario.lib (Scenario.sdk (inr 1000) (inr "0x") [] [])
            Scenario.toABCD
          = Rejected (InvalidCallTo "0xtx" "0xABCD")) as H by (vm_compute; reflexivity).
  pose proof (prepareTransfer_InvalidCallTo_only_without_code _ _ _ _ _ H)
    as (Hreach & Ht & Hto & _).
  auto.
Defined.
